(** * window.ai: model selection, provider payloads, configs and transactions

    A shallow embedding of

    - [src/core/llm/openai.ts]: the OpenAI provider descriptor built by [init];
    - the [ConfigManager] class (config resolution per model);
    - the [TransactionManager] class (transaction records).

    JavaScript objects are finite maps from property names to values, code
    that may [throw] returns a [result], and storage is passed explicitly. *)

From stdpp Require Import gmap strings list fin_maps.
From Stdlib Require Import ZArith DecimalString.

Set Warnings "-register-all".
Local Open Scope string_scope.

(** ** The fragment of JavaScript the sources rely on *)

Module JS.

(** Values. Numbers are only ever tested for being zero or compared with
    [undefined] by the modelled code, so integers stand for them. *)
Inductive value : Type :=
  | JUndefined
  | JNull
  | JBool (b : bool)
  | JNum (n : Z)
  | JStr (s : string)
  | JArr (items : list value)
  | JObj (fields : gmap string value).

(** What a [throw] carries: a [TypeError] raised by the language itself, or
    [new Error(msg)] raised by the program. *)
Inductive exn : Type :=
  | TypeError
  | Error (msg : string).

(** The outcome of running a piece of code: it returns or it throws. *)
Inductive result (A : Type) : Type :=
  | Ok (a : A)
  | Throw (e : exn).
Arguments Ok {A} a.
Arguments Throw {A} e.

Definition ret {A} (a : A) : result A := Ok a.
Definition throw {A} (e : exn) : result A := Throw e.

#[export] Instance result_ret : MRet result := λ A a, Ok a.
#[export] Instance result_bind : MBind result := λ A B k m,
  match m with
  | Ok a => k a
  | Throw e => Throw e
  end.

(** ToBoolean: what [if (v)], [v ? a : b], [!v] and [v || w] test. *)
Definition truthy (v : value) : bool :=
  match v with
  | JUndefined | JNull => false
  | JBool b => b
  | JNum n => negb (n =? 0)%Z
  | JStr s => negb (String.eqb s "")
  | JArr _ | JObj _ => true
  end.

(** [typeof v]; note that [typeof null] is ["object"]. *)
Definition typeof (v : value) : string :=
  match v with
  | JUndefined => "undefined"
  | JNull => "object"
  | JBool _ => "boolean"
  | JNum _ => "number"
  | JStr _ => "string"
  | JArr _ | JObj _ => "object"
  end.

(** A property name that is a canonical array index ("0", "1", ..., without
    sign or leading zero). *)
Definition index_key (i : nat) : string :=
  NilEmpty.string_of_uint (Nat.to_uint i).

Definition array_index (k : string) : option nat :=
  match NilEmpty.uint_of_string k with
  | Some u =>
      let i := Nat.of_uint u in
      if String.eqb (index_key i) k then Some i else None
  | None => None
  end.

(** Reading a property of a plain object: a missing key reads [undefined].
    Inherited properties of [Object.prototype] are left out; none of the
    names the sources read or test is one of them. *)
Definition prop (o : gmap string value) (k : string) : value :=
  default JUndefined (o !! k).

Definition char_at (s : string) (i : nat) : value :=
  match String.get i s with
  | Some c => JStr (String c EmptyString)
  | None => JUndefined
  end.

(** [v[k]] and [v.k]: a [TypeError] on [undefined] and [null]. *)
Definition get (v : value) (k : string) : result value :=
  match v with
  | JUndefined | JNull => throw TypeError
  | JBool _ | JNum _ => ret JUndefined
  | JStr s =>
      if String.eqb k "length" then ret (JNum (Z.of_nat (String.length s)))
      else match array_index k with
           | Some i => ret (char_at s i)
           | None => ret JUndefined
           end
  | JArr l =>
      if String.eqb k "length" then ret (JNum (Z.of_nat (length l)))
      else match array_index k with
           | Some i => ret (default JUndefined (l !! i))
           | None => ret JUndefined
           end
  | JObj o => ret (prop o k)
  end.

(** [v[i]] for a numeric [i]. *)
Definition get_index (v : value) (i : nat) : result value :=
  get v (index_key i).

(** [k in v]: a [TypeError] unless [v] is an object (arrays included). *)
Definition has (k : string) (v : value) : result bool :=
  match v with
  | JObj o => ret (bool_decide (is_Some (o !! k)))
  | JArr l =>
      if String.eqb k "length" then ret true
      else match array_index k with
           | Some i => ret (bool_decide (i < length l))
           | None => ret false
           end
  | _ => throw TypeError
  end.

(** [v || w] *)
Definition or_else (v w : value) : value := if truthy v then v else w.

(** [v === undefined] *)
Definition is_undefined (v : value) : bool :=
  match v with
  | JUndefined => true
  | _ => false
  end.

End JS.

Export JS.

(** ** [src/core/llm/openai.ts] *)

Module OpenAI.

Inductive OpenAIModelId : Type :=
  | Davinci
  | Curie
  | Codex
  | GPT3_5_Turbo
  | GPT4.

(** The string each member of the enum stands for. *)
Definition OpenAIModelId_value (m : OpenAIModelId) : string :=
  match m with
  | Davinci => "text-davinci-003"
  | Curie => "text-curie-001"
  | Codex => "code-davinci-002"
  | GPT3_5_Turbo => "gpt-3.5-turbo"
  | GPT4 => "gpt-4"
  end.

(** The fields of [ModelConfig] that [init] receives. The optional cache
    hooks are handed on untouched and play no part in what follows. *)
Record InitConfig : Type := {
  quality : string;
  debug : bool
}.

(** A request and its metadata are objects. *)
Abbreviation request := (gmap string value) (only parsing).
Abbreviation metadata := (gmap string value) (only parsing).

(** The object literal passed to [new Model(...)]. *)
Record ModelConfig : Type := {
  modelProvider : string;
  getModelId : request → string;
  baseUrl : string;
  getPath : request → string;
  config_debug : bool;
  endOfStreamSentinel : string;
  transformForRequest : request → metadata → result (gmap string value);
  transformResponse : value → result value
}.

Record Model : Type := {
  config : ModelConfig;
  defaultOptions : gmap string value
}.

Definition completionModelId (cfg : InitConfig) : OpenAIModelId :=
  if String.eqb (quality cfg) "low" then Curie else Davinci.

Definition chatModelId (cfg : InitConfig) : OpenAIModelId :=
  if String.eqb (quality cfg) "low" then GPT3_5_Turbo else GPT4.

(** [(req) => (req.messages ? chatModelId : completionModelId)] *)
Definition init_getModelId (cfg : InitConfig) (req : request) : string :=
  if truthy (prop req "messages")
  then OpenAIModelId_value (chatModelId cfg)
  else OpenAIModelId_value (completionModelId cfg).

(** [(req) => "messages" in req ? "/chat/completions" : "/completions"] *)
Definition init_getPath (req : request) : string :=
  if bool_decide (is_Some (req !! "messages"))
  then "/chat/completions"
  else "/completions".

(** [const { modelId, stop_sequences, modelProvider, ...optsToSend } = req]
    followed by the object literal: the rest of the request is spread
    first, then [model], [user] and [stop] are written over it. *)
Definition init_transformForRequest (req : request) (meta : metadata)
    : result (gmap string value) :=
  let modelId := prop req "modelId" in
  let stop_sequences := prop req "stop_sequences" in
  let optsToSend :=
    delete "modelProvider" (delete "stop_sequences" (delete "modelId" req)) in
  let user := or_else (prop meta "user_identifier") JUndefined in
  len ← get stop_sequences "length";
  let stop := if truthy len then stop_sequences else JUndefined in
  ret (<["stop" := stop]> (<["user" := user]> (<["model" := modelId]> optsToSend))).

(** [anyRes["choices"][0]] *)
Definition first_choice (res : value) : result value :=
  choices ← get res "choices";
  get_index choices 0.

Definition init_transformResponse (res : value) : result value :=
  c ← first_choice res;
  hasDelta ← has "delta" c;
  if hasDelta : bool then
    delta ← get c "delta";
    content ← get delta "content";
    ret (or_else content (JStr ""))
  else
    hasMessage ← has "message" c;
    if hasMessage : bool then
      message ← get c "message";
      get message "content"
    else
      get c "text".

Definition init (cfg : InitConfig) (opts : gmap string value) : Model :=
  {| config :=
       {| modelProvider := "openai";
          getModelId := init_getModelId cfg;
          baseUrl := "https://api.openai.com/v1";
          getPath := init_getPath;
          config_debug := debug cfg;
          endOfStreamSentinel := "[DONE]";
          transformForRequest := init_transformForRequest;
          transformResponse := init_transformResponse |};
     defaultOptions := opts |}.

(** *** Vocabulary of the properties *)




(** Sample data. *)
Definition sample_chat_request : request :=
  <["messages" := JArr [JObj (<["role" := JStr "user"]>
                             (<["content" := JStr "Hello"]> ∅))]]>
  (<["modelId" := JStr "gpt-4"]>
  (<["modelProvider" := JStr "openai"]>
  (<["stop_sequences" := JArr [JStr "END"]]>
  (<["temperature" := JNum 1]> ∅)))).


Definition sample_meta : metadata :=
  <["user_identifier" := JStr "u-42"]> ∅.

Definition sample_delta_choice : gmap string value :=
  <["delta" := JObj (<["content" := JStr "Hi"]> ∅)]> ∅.

Definition sample_delta_event : value :=
  JObj (<["choices" := JArr [JObj sample_delta_choice]]> ∅).

End OpenAI.

(** ** The [ConfigManager] class *)

Module ConfigManager.

Inductive AuthType : Type :=
  | External   (* let another site handle all authentication *)
  | APIKey.    (* use an API key *)

#[export] Instance AuthType_eq_dec : EqDecision AuthType.
Proof. solve_decision. Defined.

(** The members of the [ModelID] enum, as the keys of the [APIKeyURL] and
    [defaultAPILabel] tables list them. *)
Inductive ModelID : Type :=
  | GPT3
  | GPT4
  | Together
  | Cohere.

#[export] Instance ModelID_eq_dec : EqDecision ModelID.
Proof. solve_decision. Defined.

Definition all_ModelIDs : list ModelID := [GPT3; GPT4; Together; Cohere].

Definition APIKeyURL (m : ModelID) : string :=
  match m with
  | GPT3 => "https://platform.openai.com/account/api-keys"
  | GPT4 => "https://platform.openai.com/account/api-keys"
  | Together => "https://api.together.xyz/"
  | Cohere => "https://dashboard.cohere.ai/api-keys"
  end.

Definition defaultAPILabel (m : ModelID) : string :=
  match m with
  | GPT3 => "OpenAI: GPT-3.5"
  | GPT4 => "OpenAI: GPT-4"
  | Together => "Together: GPT NeoXT 20B"
  | Cohere => "Cohere: Xlarge"
  end.

(** [ModelProviderOptions["session"]]: an object, of which the class only
    reads [settingsUrl]. *)
Record Session : Type := {
  settingsUrl : option string
}.

Record Config : Type := {
  id : string;
  auth : AuthType;
  label : string;
  models : list ModelID;
  session : option Session;
  baseUrl : option string;
  apiKey : option string
}.

(** What the class imports and does not define: the callers of
    [~core/llm], the strings behind the [ModelID] members, and the
    identifiers [uuidv4] hands out, the [n]-th call returning [uuidv4 n]. *)
Class Imports : Type := {
  Caller : Type;
  openrouter : Caller;
  local : Caller;
  modelAPICallers : ModelID → Caller;
  ModelID_value : ModelID → string;
  uuidv4 : nat → string
}.

(** The three storage areas of the manager and the count of identifiers
    drawn so far. [byAuth a] is what [getIds(100, 0, authIndexName, a)] of
    the base class answers. *)
Record Store : Type := {
  configs : gmap string Config;
  byAuth : AuthType → list string;
  modelHandlers : ModelID → option string;
  defaultConfig : option string;
  uuids : nat
}.

(** Asynchronous methods run one after the other on the store. *)
Definition M (A : Type) : Type := Store → A * Store.

#[export] Instance M_ret : MRet M := λ A a st, (a, st).
#[export] Instance M_bind : MBind M := λ A B k m st,
  let '(a, st') := m st in k a st'.

Section Methods.
Context `{Imports}.

(** Truthiness of an optional [ModelID] argument, as [modelId ? _ : _]
    and [!modelId] test it: the member when there is one and its string is
    not empty. *)
Definition model_given (modelId : option ModelID) : option ModelID :=
  match modelId with
  | Some m => if String.eqb (ModelID_value m) "" then None else Some m
  | None => None
  end.

(** Modelled from the spec: [isKnownModel] of the public interface, which
    is not among the sources. A string is a known logical id when it is
    the string of a [ModelID] member; the answer is that member. *)
Definition isKnownModel (model : string) : option ModelID :=
  List.find (λ m, String.eqb (ModelID_value m) model) all_ModelIDs.

Definition fresh_uuid : M string := λ st,
  (uuidv4 (uuids st),
   {| configs := configs st; byAuth := byAuth st;
      modelHandlers := modelHandlers st;
      defaultConfig := defaultConfig st; uuids := S (uuids st) |}).

(** [this.get(id)] of the base class: the stored config, if any. *)
Definition get_config (id : string) : M (option Config) := λ st,
  (configs st !! id, st).

Definition modelHandlers_get (m : ModelID) : M (option string) := λ st,
  (modelHandlers st m, st).

Definition modelHandlers_remove (m : ModelID) : M unit := λ st,
  (tt,
   {| configs := configs st; byAuth := byAuth st;
      modelHandlers := λ m', if decide (m' = m) then None
                             else modelHandlers st m';
      defaultConfig := defaultConfig st; uuids := uuids st |}).

Definition defaultConfig_get : M (option string) := λ st,
  (defaultConfig st, st).

Definition defaultConfig_remove : M unit := λ st,
  (tt,
   {| configs := configs st; byAuth := byAuth st;
      modelHandlers := modelHandlers st;
      defaultConfig := None; uuids := uuids st |}).

Definition getIds (a : AuthType) : M (list string) := λ st,
  (byAuth st a, st).

(** Truthiness of a stored identifier, as [if (id)] tests it. *)
Definition id_given (i : option string) : option string :=
  match i with
  | Some s => if String.eqb s "" then None else Some s
  | None => None
  end.

Definition getCallerForAuth (a : AuthType) (modelId : option ModelID)
    : Caller :=
  match a with
  | External => openrouter
  | APIKey =>
      match model_given modelId with
      | Some m => modelAPICallers m
      | None => local
      end
  end.

Definition getLabelForAuth (a : AuthType) (modelId : option ModelID)
    : string :=
  match a with
  | External => "OpenRouter"
  | APIKey =>
      match model_given modelId with
      | Some m => defaultAPILabel m
      | None => "Local"
      end
  end.

Definition init (a : AuthType) (modelId : option ModelID) : M Config :=
  id ← fresh_uuid;
  let caller := getCallerForAuth a modelId in
  let label := getLabelForAuth a modelId in
  match a with
  | External =>
      mret {| id := id; auth := a; label := label;
              models := [GPT3; GPT4];
              session := None; baseUrl := None; apiKey := None |}
  | APIKey =>
      mret {| id := id; auth := a;
              models := match model_given modelId with
                        | Some m => [m]
                        | None => []
                        end;
              label := label;
              session := None; baseUrl := None; apiKey := None |}
  end.

(** The [model] argument of [filter]: left out, [null], or a [ModelID]. *)
Inductive ModelFilter : Type :=
  | AnyModels
  | NoModels
  | HasModel (m : ModelID).

Definition filter_keeps (model : ModelFilter) (c : Config) : bool :=
  match model with
  | NoModels => bool_decide (length (models c) = 0)
  | HasModel m =>
      match model_given (Some m) with
      | Some m => bool_decide (m ∈ models c)
      | None => true
      end
  | AnyModels => true
  end.

Definition filter (a : AuthType) (model : ModelFilter) : M (list Config) :=
  ids ← getIds a;
  maybeConfigs ← mapM get_config ids;
  let configs := omap (λ c : option Config, c) maybeConfigs in
  mret (List.filter (filter_keeps model) configs).

Definition forAuthAndModel (a : AuthType) (modelId : option ModelID)
    : M (option Config) :=
  forAuth ←
    match model_given modelId with
    | None =>
        match a with
        | APIKey => filter a NoModels   (* local model: no model id *)
        | External => filter a AnyModels
        end
    | Some m => filter a (HasModel m)
    end;
  mret (head forAuth).

Definition getOrInit (a : AuthType) (modelId : option ModelID) : M Config :=
  found ← forAuthAndModel a modelId;
  match found with
  | Some c => mret c
  | None => init a modelId
  end.

(** [{ ...defaults, ...config }]: every key of [config] wins; an optional
    key [config] lacks keeps the value of [defaults]. *)
Definition spread (defaults config : Config) : Config :=
  {| id := id config; auth := auth config; label := label config;
     models := models config;
     session := from_option Some (session defaults) (session config);
     baseUrl := from_option Some (baseUrl defaults) (baseUrl config);
     apiKey := from_option Some (apiKey defaults) (apiKey config) |}.

Definition forModel (modelId : ModelID) : M Config :=
  configId ← modelHandlers_get modelId;
  match id_given configId with
  | Some configId =>
      config ← get_config configId;
      match config with
      | Some config =>
          defaults ← init (auth config) (Some modelId);
          mret (spread defaults config)
      | None =>
          _ ← modelHandlers_remove modelId;
          getOrInit APIKey (Some modelId)
      end
  | None => getOrInit APIKey (Some modelId)
  end.

Definition isCredentialed (c : Config) : bool :=
  match auth c with
  | External => bool_decide (is_Some (session c))
  | APIKey =>
      if bool_decide (length (models c) ≠ 0)
      then match apiKey c with
           | Some k => negb (String.eqb k "")
           | None => false
           end
      else true
  end.

Definition getDefault : M Config :=
  id ← defaultConfig_get;
  match id_given id with
  | Some id =>
      config ← get_config id;
      match config with
      | Some config => mret config
      | None =>
          _ ← defaultConfig_remove;
          getOrInit External None
      end
  | None => getOrInit External None
  end.

Definition forModelWithDefault (model : option string) : M Config :=
  match model with
  | None => getDefault
  | Some s =>
      if String.eqb s "" then getDefault
      else match isKnownModel s with
           | Some m => forModel m
           | None => getOrInit APIKey None   (* local model handles unknowns *)
           end
  end.

Definition getCurrentModel (c : Config) : option ModelID :=
  if bool_decide (1 < length (models c)) then None
  else head (models c).

Definition getCaller (c : Config) : Caller :=
  getCallerForAuth (auth c) (getCurrentModel c).

End Methods.

(** *** Vocabulary of the properties *)

(** The [byAuth] index lists a config under the authentication it has:
    what [save] maintains by [indexBy(config, config.auth, authIndexName)]. *)
Definition index_consistent (st : Store) : Prop :=
  ∀ a i c, i ∈ byAuth st a → configs st !! i = Some c → auth c = a.

(** The config the stored default id resolves to, if an id is stored and
    a config is stored under it. *)
Definition default_stored (st : Store) : option Config :=
  match id_given (defaultConfig st) with
  | Some i => configs st !! i
  | None => None
  end.

(** Sample data: callers named by strings, the strings of the enum
    members, numbered identifiers, and a store holding three configs. *)
Definition sample_imports : Imports :=
  {| Caller := string;
     openrouter := "openrouter";
     local := "local";
     modelAPICallers := λ m,
       match m with
       | GPT3 | GPT4 => "openai"
       | Together => "together"
       | Cohere => "cohere"
       end;
     ModelID_value := λ m,
       match m with
       | GPT3 => "openai/gpt3.5"
       | GPT4 => "openai/gpt4"
       | Together => "together/gpt-neoxt-20B"
       | Cohere => "cohere/xlarge"
       end;
     uuidv4 := λ n, String.append "uuid-" (index_key n) |}.

Definition sample_key_config : Config :=
  {| id := "cfg-1"; auth := APIKey; label := "OpenAI: GPT-4";
     models := [GPT4]; session := None; baseUrl := None;
     apiKey := Some "sk-1" |}.

Definition sample_local_config : Config :=
  {| id := "cfg-2"; auth := APIKey; label := "Local";
     models := []; session := None; baseUrl := None; apiKey := None |}.

Definition sample_external_config : Config :=
  {| id := "cfg-3"; auth := External; label := "OpenRouter";
     models := [GPT3; GPT4]; session := Some {| settingsUrl := None |};
     baseUrl := None; apiKey := None |}.

Definition sample_store : Store :=
  {| configs := <["cfg-1" := sample_key_config]>
                (<["cfg-2" := sample_local_config]>
                (<["cfg-3" := sample_external_config]> ∅));
     byAuth := λ a, match a with
                    | APIKey => ["cfg-1"; "cfg-2"]
                    | External => ["cfg-3"]
                    end;
     modelHandlers := λ m, match m with
                           | GPT4 => Some "cfg-1"
                           | _ => None
                           end;
     defaultConfig := Some "cfg-3";
     uuids := 0 |}.

End ConfigManager.

(** ** The [TransactionManager] class *)

Module TransactionManager.

(** A transaction, an input, an origin and the options are objects. *)
Abbreviation Transaction := (gmap string value) (only parsing).

(** Modelled from the spec: [isPromptInput] of the public interface, which
    is not among the sources. The input has the single-prompt form when it
    carries a [prompt], as in [{prompt: "Hello"}]; [formatInput] of this
    class tells the forms apart the same way, by ["prompt" in txn.input]. *)
Definition isPromptInput (input : value) : result bool :=
  has "prompt" input.

(** Modelled from the spec: [isMessagesInput] of the public interface, which
    is not among the sources. The input has the role-tagged-messages form
    when it carries [messages]. *)
Definition isMessagesInput (input : value) : result bool :=
  has "messages" input.

(** [typeof input !== "object" ||
     (!isPromptInput(input) && !isMessagesInput(input))], with the
    short-circuit evaluation of [||] and [&&]. *)
Definition _validateInput (input : value) : result unit :=
  if negb (String.eqb (typeof input) "object") then
    throw (Error "Invalid input")
  else
    p ← isPromptInput input;
    if p : bool then ret tt
    else
      m ← isMessagesInput input;
      if m : bool then ret tt
      else throw (Error "Invalid input").

(** [const { x = d } = options]: the default applies when the property
    reads [undefined]. *)
Definition prop_default (o : gmap string value) (k : string) (d : value)
    : value :=
  if is_undefined (prop o k) then d else prop o k.

(** [init]; [uuid] and [now] are what [uuidv4()] and [Date.now()] answer. *)
Definition init (uuid : string) (now : Z) (input origin : value)
    (options : gmap string value) : result Transaction :=
  _ ← _validateInput input;
  let model := prop options "model" in
  let numOutputs := prop_default options "numOutputs" (JNum 1) in
  let temperature := prop options "temperature" in
  let maxTokens := prop options "maxTokens" in
  let stopSequences := prop options "stopSequences" in
  let mimeType := prop options "mimeType" in
  let numInferenceSteps := prop options "numInferenceSteps" in
  ret (<["id" := JStr uuid]>
      (<["origin" := origin]>
      (<["timestamp" := JNum now]>
      (<["input" := input]>
      (<["model" := model]>
      (<["numOutputs" := numOutputs]>
      (<["temperature" := temperature]>
      (<["maxTokens" := maxTokens]>
      (<["stopSequences" := stopSequences]>
      (<["numInferenceSteps" := numInferenceSteps]>
      (<["mimeType" := mimeType]> ∅))))))))))).

(** [this.store.get<Transaction>(id)]: the stored record, or [undefined]. *)
Definition store_get (store : gmap string Transaction) (id : string) : value :=
  from_option JObj JUndefined (store !! id).

(** One step of the [ids.map] of [_batchFetch]. *)
Definition fetch_one (store : gmap string Transaction) (id : string)
    : result Transaction :=
  let raw := store_get store id in
  n ← get raw "numOutputs";
  match raw with
  | JObj fields =>
      if is_undefined n then ret (<["numOutputs" := JNum 1]> fields)
      else ret fields
  | _ => throw TypeError
  end.

Definition _batchFetch (store : gmap string Transaction) (ids : list string)
    : result (list Transaction) :=
  mapM (fetch_one store) ids.

(** *** Vocabulary of the properties *)

(** The input carries the single-prompt form, the role-tagged-messages
    form: it is an object with that key. *)
Definition carries_prompt (input : value) : Prop :=
  ∃ fields, input = JObj fields ∧ is_Some (fields !! "prompt").

Definition carries_messages (input : value) : Prop :=
  ∃ fields, input = JObj fields ∧ is_Some (fields !! "messages").

(** A stored record as [_batchFetch] hands it out. *)
Definition backfilled (raw : Transaction) : Transaction :=
  if is_undefined (prop raw "numOutputs")
  then <["numOutputs" := JNum 1]> raw
  else raw.

(** Sample data. *)
Definition sample_prompt_input : value :=
  JObj (<["prompt" := JStr "Hello"]> ∅).

Definition sample_both_input : value :=
  JObj (<["prompt" := JStr "Hello"]>
       (<["messages" := JArr [JObj (<["role" := JStr "user"]>
                                   (<["content" := JStr "Hello"]> ∅))]]> ∅)).

Definition sample_origin : value :=
  JObj (<["domain" := JStr "example.com"]> ∅).

Definition sample_old_record : Transaction :=
  <["id" := JStr "t-1"]> (<["input" := sample_prompt_input]> ∅).

Definition sample_transactions : gmap string Transaction :=
  <["t-1" := sample_old_record]> ∅.

End TransactionManager.

(** ** [ConfigManager]: the methods that write, and the config URL *)

Module ConfigWrites.
Import ConfigManager.

(** An event handed to [Extension.sendToBackground]: [ModelChanged] with the
    model it carries. *)
Inductive Sent : Type :=
  | ModelChanged (model : option ModelID).

Section Writes.
Context `{Imports}.

(** What the class inherits and imports without defining it: [save] and
    [indexBy] of the base class, and [getExternalConfigURL()] of the
    utilities. *)
Variable super_save : Config → M bool.
Variable indexBy : Config → AuthType → M unit.
Variable externalConfigURL : string.

Definition save (config : Config) : M bool :=
  isNew ← super_save config;
  _ ← (if isNew : bool then indexBy config (auth config) else mret tt);
  mret isNew.

Definition modelHandlers_set (m : ModelID) (i : string) : M unit := λ st,
  (tt,
   {| configs := configs st; byAuth := byAuth st;
      modelHandlers := λ m', if decide (m' = m) then Some i
                             else modelHandlers st m';
      defaultConfig := defaultConfig st; uuids := uuids st |}).

Definition defaultConfig_set (i : string) : M unit := λ st,
  (tt,
   {| configs := configs st; byAuth := byAuth st;
      modelHandlers := modelHandlers st;
      defaultConfig := Some i; uuids := uuids st |}).

(** [setDefault]; the answer lists the events sent to the background. *)
Definition setDefault (config : Config) : M (list Sent) :=
  _ ← save config;
  _ ← mapM (λ modelId, modelHandlers_set modelId (id config)) (models config);
  previous ← defaultConfig_get;
  _ ← defaultConfig_set (id config);
  if bool_decide (previous ≠ Some (id config))
  then mret [ModelChanged (getCurrentModel config)]
  else mret [].

(** [config.session?.settingsUrl ?? getExternalConfigURL()] for external
    authentication; the key page of the current model, or the local-model
    setup page, for API-key authentication. *)
Definition getExternalConfigURL (config : Config) : string :=
  match auth config with
  | External =>
      match session config with
      | Some s => default externalConfigURL (settingsUrl s)
      | None => externalConfigURL
      end
  | APIKey =>
      match model_given (getCurrentModel config) with
      | None =>
          "https://github.com/alexanderatallah/window.ai#-local-model-setup"
      | Some model => APIKeyURL model
      end
  end.

End Writes.

(** *** Vocabulary of the properties *)

(** What a filter argument asks of a config. *)
Definition filter_matches `{Imports} (model : ModelFilter) (c : Config) : Prop :=
  match model with
  | AnyModels => True
  | NoModels => models c = []
  | HasModel m => model_given (Some m) = None ∨ m ∈ models c
  end.

(** The stored configs the index lists under an authentication, in the
    order of the index; an id with no config stored under it is skipped. *)
Definition stored_under (st : Store) (a : AuthType) : list Config :=
  omap (λ c : option Config, c) ((λ i, configs st !! i) <$> byAuth st a).

(** The handler of [m] points at nothing: an id is stored for [m] and no
    config is stored under it. *)
Definition dangling_handler (st : Store) (m : ModelID) : Prop :=
  ∃ i, modelHandlers st m = Some i ∧ i ≠ "" ∧ configs st !! i = None.

Definition dangling_default (st : Store) : Prop :=
  ∃ i, defaultConfig st = Some i ∧ i ≠ "" ∧ configs st !! i = None.

(** The base class keeps its side of [save]: the config is stored under its
    id, and the model handlers and the default id, which live in storage
    areas of their own, are left alone. *)
Definition save_stores `{Imports} (super_save : Config → M bool)
    (indexBy : Config → AuthType → M unit) (config : Config) (st : Store)
    : Prop :=
  let st' := (save super_save indexBy config st).2 in
  configs st' !! id config = Some config
  ∧ modelHandlers st' = modelHandlers st
  ∧ defaultConfig st' = defaultConfig st.

(** Sample data: a base class that stores the config and lists a new one
    under its authentication. *)
Definition sample_super_save (config : Config) : M bool := λ st,
  (bool_decide (configs st !! id config = None),
   {| configs := <[id config := config]> (configs st); byAuth := byAuth st;
      modelHandlers := modelHandlers st;
      defaultConfig := defaultConfig st; uuids := uuids st |}).

Definition sample_indexBy (config : Config) (a : AuthType) : M unit := λ st,
  (tt,
   {| configs := configs st;
      byAuth := λ a', if decide (a' = a) then (byAuth st a' ++ [id config])%list
                      else byAuth st a';
      modelHandlers := modelHandlers st;
      defaultConfig := defaultConfig st; uuids := uuids st |}).

(** The sample store with no default id. *)
Definition sample_store_without_default : Store :=
  {| configs := configs sample_store; byAuth := byAuth sample_store;
     modelHandlers := modelHandlers sample_store;
     defaultConfig := None; uuids := 0 |}.

(** A store with no default id, and one config, which was stored anew with
    external authentication, hence listed under it, and stored again under
    the same id with API-key authentication: [save] lists only a new id. *)
Definition misfiled_store : Store :=
  {| configs := <["cfg-2" := sample_local_config]> ∅;
     byAuth := λ a, match a with
                    | External => ["cfg-2"]
                    | APIKey => []
                    end;
     modelHandlers := λ _, None;
     defaultConfig := None;
     uuids := 0 |}.

Definition sample_new_config : Config :=
  {| id := "cfg-9"; auth := APIKey; label := "Cohere: Xlarge";
     models := [Cohere]; session := None; baseUrl := None;
     apiKey := Some "co-1" |}.

End ConfigWrites.

(** ** [TransactionManager]: routed model and formatting *)

Module TransactionFormat.
Import TransactionManager.

(** [txn.routedModel || txn.model] *)
Definition getRoutedModel (txn : Transaction) : value :=
  or_else (prop txn "routedModel") (prop txn "model").

Definition formatJSON (txn : Transaction) : gmap string value :=
  let input := prop txn "input" in
  let temperature := prop txn "temperature" in
  let maxTokens := prop txn "maxTokens" in
  let stopSequences := prop txn "stopSequences" in
  let model := prop txn "model" in
  let numOutputs := prop txn "numOutputs" in
  <["input" := input]>
  (<["temperature" := temperature]>
  (<["maxTokens" := maxTokens]>
  (<["stopSequences" := stopSequences]>
  (<["model" := model]>
  (<["numOutputs" := numOutputs]> ∅))))).

(** [arr.map(f)]: a [TypeError] when [arr] is no array, since then there is
    no [map] to call. *)
Definition array_map (f : value → result value) (arr : value)
    : result (list value) :=
  match arr with
  | JArr items => mapM f items
  | _ => throw TypeError
  end.

(** [s.substring(0, n)]: a [TypeError] when [s] is no string. *)
Definition substring_from_0 (n : nat) (s : value) : result string :=
  match s with
  | JStr s => ret (String.substring 0 n s)
  | _ => throw TypeError
  end.

(** The separator ["\n"] of the [join]s. *)
Definition newline : string := String (Ascii.ascii_of_nat 10) EmptyString.

Section Formatting.

(** The string conversion of template literals and of [join], and the two
    type guards of the public interface, which are not among the sources. *)
Variable ToString : value → string.
Variable isMediaOutput : value → result bool.
Variable isTextOutput : value → result bool.

(** [`${a}: ${b}`] *)
Definition labelled (a b : value) : string :=
  String.append (ToString a) (String.append ": " (ToString b)).

(** [arr.join(sep)]: [undefined] and [null] items count as empty. *)
Definition join (sep : string) (items : list value) : string :=
  String.concat sep
    (List.map (λ v, match v with
                    | JUndefined | JNull => ""
                    | _ => ToString v
                    end) items).

Definition formatInput (txn : Transaction) : result value :=
  let input := prop txn "input" in
  p ← has "prompt" input;
  if p : bool then get input "prompt"
  else
    messages ← get input "messages";
    lines ← array_map (λ m, role ← get m "role";
                            content ← get m "content";
                            ret (JStr (labelled role content))) messages;
    ret (JStr (join newline lines)).

Definition formatOutput (txn : Transaction) : result value :=
  let outputs := prop txn "outputs" in
  if negb (truthy outputs) then ret JUndefined
  else
    lines ← array_map
      (λ t, media ← isMediaOutput t;
            if media : bool then
              uri ← get t "uri";
              head ← substring_from_0 50 uri;
              ret (JStr (String.append head "..."))
            else
              text ← isTextOutput t;
              if text : bool then get t "text"
              else
                message ← get t "message";
                role ← get message "role";
                content ← get message "content";
                ret (JStr (labelled role content))) outputs;
    ret (JStr (join newline lines)).

End Formatting.

(** *** Vocabulary of the properties *)

(** A chat message whose role and content are strings. *)
Definition chat_message (role content : string) : value :=
  JObj (<["role" := JStr role]> (<["content" := JStr content]> ∅)).

(** Sample data: a string conversion that leaves strings as they are. *)
Definition sample_ToString (v : value) : string :=
  match v with
  | JStr s => s
  | JUndefined => "undefined"
  | JNull => "null"
  | JBool true => "true"
  | JBool false => "false"
  | _ => "[object Object]"
  end.

Definition sample_messages_fields : gmap string value :=
  <["messages" := JArr [chat_message "system" "Be brief";
                        chat_message "user" "Hello"]]> ∅.

Definition sample_messages_input : value := JObj sample_messages_fields.

Definition sample_both_fields : gmap string value :=
  <["prompt" := JStr "Hello"]>
  (<["messages" := JArr [chat_message "user" "Hello"]]> ∅).

End TransactionFormat.

(** ** The terminal of the web container: what is typed at the prompt *)

Module WebVM.

(** Strings as the terminal delivers them: sequences of UTF-16 code units. *)
Abbreviation jsstring := (list N) (only parsing).

(** [a < b] on strings: the first differing code unit decides, and a proper
    prefix comes first. *)
Fixpoint str_lt (a b : jsstring) : bool :=
  match a, b with
  | _, [] => false
  | [], _ :: _ => true
  | x :: a', y :: b' =>
      if (x <? y)%N then true
      else if (y <? x)%N then false
      else str_lt a' b'
  end.

(** [a >= b] and [a <= b] *)
Definition str_ge (a b : jsstring) : bool := negb (str_lt a b).
Definition str_le (a b : jsstring) : bool := negb (str_lt b a).

#[export] Instance jsstring_eq_dec : EqDecision (list N).
Proof. solve_decision. Defined.

(** What one call of the [terminal.onData] handler does, up to the point
    where it first waits, besides updating [promptRef.current]. [Execute p]
    is the call [execute(p)] being made: what [execute] goes on to do (it
    writes to the same shell input) and whether it ever settles are not
    part of the step. *)
Inductive effect : Type :=
  | Execute (prompt : jsstring)      (* [execute(promptRef.current)] *)
  | InputWrite (data : jsstring).    (* [input.write(data)] *)

(** [promptRef.current.slice(0, -1)] *)
Definition drop_last (s : jsstring) : jsstring := take (length s - 1) s.

(** The test of the [default] case: [data] lies between [" "] and ["~"],
    or from [U+00A0] on. *)
Definition recorded (data : jsstring) : bool :=
  (str_ge data [32%N] && str_le data [126%N]) || str_ge data [160%N].

(** One call of the handler on a chunk of data, up to the point where it
    first waits: the effects in order and the prompt it leaves. Backspace
    and the default case run to their end. Enter calls [execute] and waits
    for it, leaving the prompt as it is; the prompt is emptied only later,
    if and when [execute] settles without an error. *)
Definition onData (prompt data : jsstring) : list effect * jsstring :=
  if decide (data = [13%N]) then
    ([Execute prompt], prompt)
  else if decide (data = [127%N]) then
    ([InputWrite data],
     if bool_decide (0 < length prompt) then drop_last prompt else prompt)
  else
    ([InputWrite data],
     if recorded data then (prompt ++ data)%list else prompt).

(** *** Vocabulary of the properties *)

(** A printable character the handler records when it comes alone. *)
Definition printable (c : N) : Prop :=
  (32 ≤ c ∧ c ≤ 126)%N ∨ (160 ≤ c)%N.

End WebVM.

(** * Properties *)

(** ** The OpenAI descriptor *)

Section OpenAI_properties.
Import OpenAI.

Variable cfg : InitConfig.
Variable opts : gmap string value.

Let descriptor : ModelConfig := config (init cfg opts).




(** C3. When [stop_sequences] of the request is an array, the payload's
    [stop] is [undefined] for the empty array and the array itself
    otherwise. *)
Theorem transformForRequest_stop (req meta : gmap string value)
    (stop_sequences : list value) :
  req !! "stop_sequences" = Some (JArr stop_sequences) →
  ∃ payload,
    transformForRequest descriptor req meta = Ok payload
    ∧ payload !! "stop" =
        Some (match stop_sequences with
              | [] => JUndefined
              | _ :: _ => JArr stop_sequences
              end).
Proof.
  intros Hs. subst descriptor. simpl. unfold init_transformForRequest, prop.
  rewrite Hs. simpl. eexists. split; [reflexivity|].
  rewrite lookup_insert_eq. by destruct stop_sequences.
Qed.


End OpenAI_properties.




(** C3 at the sample chat request, whose [stop_sequences] is [["END"]]. *)
Lemma transformForRequest_stop_witness :
  ∃ payload,
    OpenAI.transformForRequest
      (OpenAI.config (OpenAI.init {| OpenAI.quality := "low"; OpenAI.debug := false |} ∅))
      OpenAI.sample_chat_request OpenAI.sample_meta = Ok payload
    ∧ payload !! "stop" = Some (JArr [JStr "END"]).
Proof.
  exact (transformForRequest_stop
           {| OpenAI.quality := "low"; OpenAI.debug := false |} ∅
           OpenAI.sample_chat_request OpenAI.sample_meta [JStr "END"] eq_refl).
Defined.


(** ** Config resolution *)

Section ConfigManager_properties.
Import ConfigManager.
Context `{Imports}.

(** *** How the methods run on a store *)

Lemma bind_run {A B} (m : M A) (k : A → M B) (st : Store) :
  (m ≫= k) st = k (m st).1 (m st).2.
Proof. unfold mbind, M_bind. by destruct (m st). Qed.

Lemma mapM_get_config_run (ids : list string) (st : Store) :
  mapM get_config ids st = ((λ i, configs st !! i) <$> ids, st).
Proof.
  induction ids as [|i ids IH]; [done|].
  simpl. rewrite bind_run. simpl. rewrite bind_run, IH. done.
Qed.

Lemma filter_run (a : AuthType) (f : ModelFilter) (st : Store) :
  filter a f st =
    (List.filter (filter_keeps f)
       (omap (λ c : option Config, c)
          ((λ i, configs st !! i) <$> byAuth st a)), st).
Proof.
  unfold filter. rewrite bind_run. simpl. rewrite bind_run.
  by rewrite mapM_get_config_run.
Qed.

(** [forAuthAndModel] only reads, and only the configs and the index. *)
Lemma forAuthAndModel_reads (a : AuthType) (modelId : option ModelID)
    (st : Store) :
  (forAuthAndModel a modelId st).2 = st.
Proof.
  unfold forAuthAndModel, mbind, M_bind.
  destruct (model_given modelId), a; by rewrite filter_run.
Qed.

Lemma forAuthAndModel_frame (a : AuthType) (modelId : option ModelID)
    (st st' : Store) :
  configs st = configs st' → byAuth st = byAuth st' →
  (forAuthAndModel a modelId st).1 = (forAuthAndModel a modelId st').1.
Proof.
  intros Hc Hi. unfold forAuthAndModel, mbind, M_bind.
  destruct (model_given modelId), a; rewrite !filter_run, Hc, Hi; done.
Qed.

(** What [forAuthAndModel] finds is listed under [a] and stored, and
    passes the test of the filter that was run. *)
Lemma forAuthAndModel_found (a : AuthType) (modelId : option ModelID)
    (st : Store) (c : Config) :
  (forAuthAndModel a modelId st).1 = Some c →
  (∃ i, i ∈ byAuth st a ∧ configs st !! i = Some c)
  ∧ (a = APIKey → model_given modelId = None → models c = []).
Proof.
  unfold forAuthAndModel, mbind, M_bind.
  set (stored := omap (λ c : option Config, c)
                   ((λ i, configs st !! i) <$> byAuth st a)).
  assert (Hstored : ∀ f, c ∈ List.filter (filter_keeps f) stored →
            (∃ i, i ∈ byAuth st a ∧ configs st !! i = Some c)
            ∧ filter_keeps f c = true).
  { intros f Hin. apply list_elem_of_In, filter_In in Hin as [Hin Hf].
    split; [|done]. apply list_elem_of_In in Hin.
    apply list_elem_of_omap in Hin as (o & Ho & ->).
    apply list_elem_of_fmap in Ho as (i & Hi & Hin). eauto. }
  intros Hhead.
  assert (∃ f, c ∈ List.filter (filter_keeps f) stored
               ∧ (a = APIKey → model_given modelId = None → f = NoModels))
    as (f & Hin & Hf).
  { destruct (model_given modelId), a; rewrite filter_run in Hhead;
      simpl in Hhead; apply head_Some_elem_of in Hhead;
      eexists; (split; [exact Hhead | done]). }
  destruct (Hstored f Hin) as [Hi Hkeep]. split; [done|].
  intros Ha Hm. rewrite (Hf Ha Hm) in Hkeep. simpl in Hkeep.
  apply bool_decide_eq_true in Hkeep. by apply nil_length_inv.
Qed.

Lemma init_run (a : AuthType) (modelId : option ModelID) (st : Store) :
  ∃ c, init a modelId st =
         (c, {| configs := configs st; byAuth := byAuth st;
                modelHandlers := modelHandlers st;
                defaultConfig := defaultConfig st; uuids := S (uuids st) |})
       ∧ id c = uuidv4 (uuids st)
       ∧ auth c = a
       ∧ models c = match a with
                    | External => [GPT3; GPT4]
                    | APIKey => match model_given modelId with
                                | Some m => [m]
                                | None => []
                                end
                    end
       ∧ label c = getLabelForAuth a modelId.
Proof. destruct a; eexists; (split; [reflexivity|done]). Qed.

(** [getOrInit] either answers the stored config that [forAuthAndModel]
    finds, leaving the store as it is, or runs [init]. *)
Lemma getOrInit_run (a : AuthType) (modelId : option ModelID) (st : Store) :
  match (forAuthAndModel a modelId st).1 with
  | Some c => getOrInit a modelId st = (c, st)
  | None => getOrInit a modelId st = init a modelId st
  end.
Proof.
  unfold getOrInit, mbind, M_bind.
  pose proof (forAuthAndModel_reads a modelId st) as Hst.
  destruct (forAuthAndModel a modelId st) as [[c|] st']; simpl in *;
    by subst st'.
Qed.

(** [getOrInit] changes nothing but the count of identifiers drawn. *)
Lemma getOrInit_preserves (a : AuthType) (modelId : option ModelID)
    (st : Store) :
  let st' := (getOrInit a modelId st).2 in
  configs st' = configs st ∧ byAuth st' = byAuth st
  ∧ modelHandlers st' = modelHandlers st
  ∧ defaultConfig st' = defaultConfig st.
Proof.
  pose proof (getOrInit_run a modelId st) as Hrun.
  destruct ((forAuthAndModel a modelId st).1); rewrite Hrun; [done|].
  destruct (init_run a modelId st) as (c & -> & _). done.
Qed.

(** On stores with the same configs and index, [getOrInit] answers configs
    with the same authentication and models. *)
Lemma getOrInit_frame (a : AuthType) (modelId : option ModelID)
    (st st' : Store) :
  configs st = configs st' → byAuth st = byAuth st' →
  auth (getOrInit a modelId st).1 = auth (getOrInit a modelId st').1
  ∧ models (getOrInit a modelId st).1 = models (getOrInit a modelId st').1.
Proof.
  intros Hc Hi.
  pose proof (getOrInit_run a modelId st) as Hrun.
  pose proof (getOrInit_run a modelId st') as Hrun'.
  rewrite <- (forAuthAndModel_frame a modelId st st' Hc Hi) in Hrun'.
  destruct ((forAuthAndModel a modelId st).1); rewrite Hrun, Hrun'; [done|].
  destruct (init_run a modelId st) as (c & -> & _ & Ha & Hm & _).
  destruct (init_run a modelId st') as (c' & -> & _ & Ha' & Hm' & _).
  simpl. by rewrite Ha, Ha', Hm, Hm'.
Qed.

(** Under a consistent index, [getOrInit a] answers a config with
    authentication [a]. *)
Lemma getOrInit_auth (a : AuthType) (modelId : option ModelID) (st : Store) :
  index_consistent st → auth (getOrInit a modelId st).1 = a.
Proof.
  intros Hidx. pose proof (getOrInit_run a modelId st) as Hrun.
  destruct ((forAuthAndModel a modelId st).1) as [c|] eqn:E; rewrite Hrun.
  - apply forAuthAndModel_found in E as [(i & Hi & Hc) _]. simpl. eauto.
  - by destruct (init_run a modelId st) as (c & -> & _ & Ha & _).
Qed.

(** *** The claims *)

Lemma forModel_run (modelId : ModelID) (st : Store) :
  forModel modelId st =
    match id_given (modelHandlers st modelId) with
    | Some configId =>
        match configs st !! configId with
        | Some config =>
            (spread (init (auth config) (Some modelId) st).1 config,
             (init (auth config) (Some modelId) st).2)
        | None =>
            getOrInit APIKey (Some modelId) (modelHandlers_remove modelId st).2
        end
    | None => getOrInit APIKey (Some modelId) st
    end.
Proof.
  unfold forModel. rewrite bind_run. simpl.
  destruct (id_given (modelHandlers st modelId)) as [configId|]; [|done].
  rewrite bind_run. simpl.
  destruct (configs st !! configId) as [config|]; by rewrite bind_run.
Qed.

Lemma same_routing (c1 c2 : Config) :
  auth c1 = auth c2 → models c1 = models c2 →
  getCaller c1 = getCaller c2 ∧ getCurrentModel c1 = getCurrentModel c2.
Proof.
  unfold getCaller, getCurrentModel. by intros -> ->.
Qed.

(** A second [forModel], run on the store the first one leaves, answers
    a config with the same authentication and models. *)
Lemma forModel_again (modelId : ModelID) (st : Store) :
  auth (forModel modelId st).1
  = auth (forModel modelId (forModel modelId st).2).1
  ∧ models (forModel modelId st).1
    = models (forModel modelId (forModel modelId st).2).1.
Proof.
  rewrite (forModel_run modelId st).
  destruct (id_given (modelHandlers st modelId)) as [configId|] eqn:Eh;
    [destruct (configs st !! configId) as [config|] eqn:Ec|].
  - destruct (init_run (auth config) (Some modelId) st) as (d & Hd & _).
    rewrite Hd. simpl. rewrite forModel_run. simpl. by rewrite Eh, Ec.
  - set (st0 := (modelHandlers_remove modelId st).2).
    destruct (getOrInit_preserves APIKey (Some modelId) st0)
      as (Hc & Hi & Hh & _).
    rewrite forModel_run, Hh. simpl.
    destruct (decide (modelId = modelId)); [simpl|done].
    by apply getOrInit_frame.
  - destruct (getOrInit_preserves APIKey (Some modelId) st)
      as (Hc & Hi & Hh & _).
    rewrite forModel_run, Hh, Eh. by apply getOrInit_frame.
Qed.

(** C5. Two descriptors built by the OpenAI [init] from configs of equal
    quality answer the same model id on the same request; and two calls of
    [forModel] for the same [ModelID], the second on the store the first
    leaves, answer configs with the same caller and the same current
    model. *)
Theorem resolution_idempotent :
  (∀ cfg1 cfg2 opts1 opts2 (req : gmap string value),
     OpenAI.quality cfg1 = OpenAI.quality cfg2 →
     OpenAI.getModelId (OpenAI.config (OpenAI.init cfg1 opts1)) req
     = OpenAI.getModelId (OpenAI.config (OpenAI.init cfg2 opts2)) req)
  ∧ (∀ (modelId : ModelID) (st : Store),
       let first := forModel modelId st in
       let second := forModel modelId first.2 in
       getCaller first.1 = getCaller second.1
       ∧ getCurrentModel first.1 = getCurrentModel second.1).
Proof.
  split.
  - intros cfg1 cfg2 opts1 opts2 req Hq. simpl.
    unfold OpenAI.init_getModelId, OpenAI.chatModelId,
      OpenAI.completionModelId. by rewrite Hq.
  - intros modelId st. simpl.
    destruct (forModel_again modelId st). by apply same_routing.
Qed.

Lemma getDefault_run (st : Store) :
  getDefault st =
    match id_given (defaultConfig st) with
    | Some i =>
        match configs st !! i with
        | Some config => (config, st)
        | None => getOrInit External None (defaultConfig_remove st).2
        end
    | None => getOrInit External None st
    end.
Proof.
  unfold getDefault. rewrite bind_run. simpl.
  destruct (id_given (defaultConfig st)) as [i|]; [|done].
  rewrite bind_run. simpl.
  destruct (configs st !! i) as [config|]; [done|by rewrite bind_run].
Qed.


(** C10. [isCredentialed] holds for a config with external authentication
    exactly when it has a session; for one with API-key authentication and
    some model exactly when it has a non-empty [apiKey]; and always for
    one with API-key authentication and no model. *)
Theorem isCredentialed_cases (c : Config) :
  (auth c = External → (isCredentialed c = true ↔ is_Some (session c)))
  ∧ (auth c = APIKey → models c ≠ [] →
       (isCredentialed c = true ↔ ∃ k, apiKey c = Some k ∧ k ≠ ""))
  ∧ (auth c = APIKey → models c = [] → isCredentialed c = true).
Proof.
  unfold isCredentialed. split; [|split].
  - intros ->. apply bool_decide_eq_true.
  - intros -> Hmodels.
    rewrite bool_decide_eq_true_2 by (by destruct (models c)).
    split.
    + destruct (apiKey c) as [k|]; [|done].
      intros Hk. exists k. split; [done|]. by intros ->.
    + intros (k & -> & Hk). apply String.eqb_neq in Hk. by rewrite Hk.
  - by intros -> ->.
Qed.

End ConfigManager_properties.


(** C5 at quality ["low"] and at [ModelID.GPT4] on the sample store. *)
Lemma resolution_idempotent_witness :
  OpenAI.getModelId
    (OpenAI.config (OpenAI.init {| OpenAI.quality := "low"; OpenAI.debug := false |} ∅))
    OpenAI.sample_chat_request
  = OpenAI.getModelId
      (OpenAI.config (OpenAI.init {| OpenAI.quality := "low"; OpenAI.debug := true |} ∅))
      OpenAI.sample_chat_request
  ∧ @ConfigManager.getCaller ConfigManager.sample_imports
      (@ConfigManager.forModel ConfigManager.sample_imports
         ConfigManager.GPT4 ConfigManager.sample_store).1
    = @ConfigManager.getCaller ConfigManager.sample_imports
        (@ConfigManager.forModel ConfigManager.sample_imports
           ConfigManager.GPT4
           (@ConfigManager.forModel ConfigManager.sample_imports
              ConfigManager.GPT4 ConfigManager.sample_store).2).1.
Proof.
  destruct (@resolution_idempotent ConfigManager.sample_imports) as [Hm Hc].
  split.
  - exact (Hm {| OpenAI.quality := "low"; OpenAI.debug := false |}
              {| OpenAI.quality := "low"; OpenAI.debug := true |}
              ∅ ∅ OpenAI.sample_chat_request eq_refl).
  - exact (proj1 (Hc ConfigManager.GPT4 ConfigManager.sample_store)).
Defined.



(** C10 at the three sample configs. *)
Lemma isCredentialed_cases_witness :
  ConfigManager.isCredentialed ConfigManager.sample_external_config = true
  ∧ ConfigManager.isCredentialed ConfigManager.sample_key_config = true
  ∧ ConfigManager.isCredentialed ConfigManager.sample_local_config = true.
Proof.
  split; [|split].
  - apply (proj1 (isCredentialed_cases ConfigManager.sample_external_config)
             eq_refl).
    simpl. eauto.
  - apply (proj1 (proj2 (isCredentialed_cases ConfigManager.sample_key_config))
             eq_refl).
    + discriminate.
    + exists "sk-1". split; [reflexivity | discriminate].
  - exact (proj2 (proj2 (isCredentialed_cases
                           ConfigManager.sample_local_config))
             eq_refl eq_refl).
Defined.

(** ** Transactions *)

Section TransactionManager_properties.
Import TransactionManager.

(** [_validateInput] lets through exactly the objects with a [prompt] or
    a [messages] key; on anything else but [null] the error is the
    ["Invalid input"] one. *)
Lemma _validateInput_run (input : value) :
  match input with
  | JObj fields =>
      _validateInput input =
        if bool_decide (is_Some (fields !! "prompt")) then Ok tt
        else if bool_decide (is_Some (fields !! "messages")) then Ok tt
        else Throw (Error "Invalid input")
  | JNull => _validateInput input = Throw TypeError
  | _ => _validateInput input = Throw (Error "Invalid input")
  end.
Proof.
  by destruct input.
Qed.

Lemma transaction_init_run (uuid : string) (now : Z) (input origin : value)
    (options : gmap string value) :
  match _validateInput input with
  | Ok _ => ∃ txn, init uuid now input origin options = Ok txn
                   ∧ txn !! "numOutputs"
                     = Some (prop_default options "numOutputs" (JNum 1))
                   ∧ txn !! "outputs" = None
                   ∧ txn !! "error" = None
  | Throw e => init uuid now input origin options = Throw e
  end.
Proof.
  unfold init. destruct (_validateInput input) as [[]|e]; simpl; [|done].
  eexists. split; [reflexivity|]. by simplify_map_eq.
Qed.

(** C8, amended. [init] raises an error exactly when the input is not an
    object or carries neither the single-prompt nor the messages form, and
    that error is ["Invalid input"] unless the input is [null]; an input
    carrying one of the two forms, or both, is accepted. *)
Theorem init_rejects_neither_form (uuid : string) (now : Z)
    (input origin : value) (options : gmap string value) :
  ((∃ e, init uuid now input origin options = Throw e)
   ↔ typeof input ≠ "object"
     ∨ ¬ (carries_prompt input ∨ carries_messages input))
  ∧ (input ≠ JNull →
     (∃ e, init uuid now input origin options = Throw e) →
     init uuid now input origin options = Throw (Error "Invalid input"))
  ∧ (carries_prompt input ∨ carries_messages input →
     ∃ txn, init uuid now input origin options = Ok txn).
Proof.
  pose proof (transaction_init_run uuid now input origin options) as Hinit.
  pose proof (_validateInput_run input) as Hval.
  unfold carries_prompt, carries_messages.
  destruct input as [| | | | | items | fields];
    try (rewrite Hval in Hinit; rewrite Hinit;
         split; [split; [intros _|by eauto]|split; [done|]];
         [first [by left | right; by intros [(? & ? & ?) | (? & ? & ?)]]
         |by intros [(? & ? & ?) | (? & ? & ?)]]).
  rewrite Hval in Hinit.
  destruct (bool_decide (is_Some (fields !! "prompt"))) eqn:Ep;
    [|destruct (bool_decide (is_Some (fields !! "messages"))) eqn:Em].
  - destruct Hinit as (txn & Hinit & _). rewrite Hinit.
    apply bool_decide_eq_true in Ep.
    split; [split|split]; eauto.
    + by intros [e ?].
    + intros [? | Hn]; [done|]. destruct Hn. left. eauto.
    + by intros _ [e ?].
  - destruct Hinit as (txn & Hinit & _). rewrite Hinit.
    apply bool_decide_eq_true in Em.
    split; [split|split]; eauto.
    + by intros [e ?].
    + intros [? | Hn]; [done|]. destruct Hn. right. eauto.
    + by intros _ [e ?].
  - rewrite Hinit.
    apply bool_decide_eq_false in Ep. apply bool_decide_eq_false in Em.
    split; [split|split]; eauto.
    + intros _. right.
      intros [(f & [= <-] & ?) | (f & [= <-] & ?)]; done.
    + intros [(f & [= <-] & ?) | (f & [= <-] & ?)]; done.
Qed.

Lemma fetch_one_run (store : gmap string (gmap string value)) (id : string) :
  fetch_one store id =
    match store !! id with
    | Some raw => Ok (backfilled raw)
    | None => Throw TypeError
    end.
Proof.
  unfold fetch_one, store_get, backfilled.
  destruct (store !! id) as [raw|]; simpl; [|done].
  by destruct (is_undefined (prop raw "numOutputs")).
Qed.

Lemma backfilled_numOutputs (raw : gmap string value) :
  ∃ v, backfilled raw !! "numOutputs" = Some v ∧ v ≠ JUndefined.
Proof.
  unfold backfilled, prop.
  destruct (raw !! "numOutputs") as [v|] eqn:E; simpl.
  - destruct (is_undefined v) eqn:Ev.
    + exists (JNum 1). by rewrite lookup_insert_eq.
    + exists v. split; [done|]. by intros ->.
  - exists (JNum 1). by rewrite lookup_insert_eq.
Qed.

Lemma _batchFetch_cons (store : gmap string (gmap string value))
    (id : string) (ids : list string) :
  _batchFetch store (id :: ids) =
    (t ← fetch_one store id;
     ts ← _batchFetch store ids;
     Ok (t :: ts)).
Proof. done. Qed.

(** [_batchFetch] returns when every id is stored, and then hands out the
    stored records, backfilled, in the order of the ids. *)
Lemma _batchFetch_run (store : gmap string (gmap string value))
    (ids : list string) :
  (Forall (λ id, is_Some (store !! id)) ids →
     ∃ txns, _batchFetch store ids = Ok txns)
  ∧ (∀ txns, _batchFetch store ids = Ok txns →
       Forall2 (λ id t, ∃ raw, store !! id = Some raw ∧ t = backfilled raw)
         ids txns).
Proof.
  induction ids as [|id ids [IHret IHall]].
  - split; [by eexists|]. intros txns [= <-]. constructor.
  - rewrite _batchFetch_cons, fetch_one_run. split.
    + intros [[raw ->] [txns ->]%IHret]%Forall_cons. by eexists.
    + intros txns. destruct (store !! id) as [raw|] eqn:E; [|done].
      simpl. destruct (_batchFetch store ids) as [ts|]; [|done].
      intros [= <-]. constructor; eauto.
Qed.

(** C9, amended. A transaction that [init] produces has the [numOutputs]
    the options give, whatever value that is, and 1 when the options omit
    it (or give [undefined]); it has no [outputs] and no [error]. Every
    transaction [_batchFetch] returns has [numOutputs] defined, 1 for a
    stored record that lacks it, and [_batchFetch] returns whenever every
    id is stored. *)
Theorem numOutputs_defaults :
  (∀ uuid now input origin (options txn : gmap string value),
     init uuid now input origin options = Ok txn →
     (options !! "numOutputs" = None
      ∨ options !! "numOutputs" = Some JUndefined →
        txn !! "numOutputs" = Some (JNum 1))
     ∧ (∀ v, options !! "numOutputs" = Some v → v ≠ JUndefined →
          txn !! "numOutputs" = Some v)
     ∧ txn !! "outputs" = None
     ∧ txn !! "error" = None)
  ∧ (∀ (store : gmap string (gmap string value)) (ids : list string),
       (Forall (λ id, is_Some (store !! id)) ids →
          ∃ txns, _batchFetch store ids = Ok txns)
       ∧ (∀ txns, _batchFetch store ids = Ok txns →
            Forall (λ t : gmap string value,
                      ∃ v, t !! "numOutputs" = Some v ∧ v ≠ JUndefined) txns
            ∧ Forall2 (λ id t, ∃ raw : gmap string value,
                         store !! id = Some raw
                         ∧ (raw !! "numOutputs" = None →
                            t = <["numOutputs" := JNum 1]> raw)
                         ∧ (∀ v, raw !! "numOutputs" = Some v →
                              v ≠ JUndefined → t = raw))
                ids txns)).
Proof.
  split.
  - intros uuid now input origin options txn Hinit.
    pose proof (transaction_init_run uuid now input origin options) as Hrun.
    destruct (_validateInput input); [|congruence].
    destruct Hrun as (txn' & Htxn & Hn & Ho & He).
    assert (txn' = txn) as -> by congruence.
    rewrite Hn. unfold prop_default, prop. repeat split; try done.
    + by intros [-> | ->].
    + intros v -> Hv. by destruct v.
  - intros store ids. destruct (_batchFetch_run store ids) as [Hret Hall].
    split; [done|]. intros txns Htxns. specialize (Hall txns Htxns).
    split.
    + clear Htxns Hret. induction Hall as [|id t ids txns (raw & _ & ->)];
        constructor; [apply backfilled_numOutputs | done].
    + eapply Forall2_impl; [exact Hall|].
      intros id t (raw & Hraw & ->). exists raw. split; [done|].
      unfold backfilled, prop. split.
      * by intros ->.
      * intros v -> Hv. by destruct v.
Qed.

End TransactionManager_properties.

(** C8, amended, at the sample prompt input. *)
Lemma init_rejects_neither_form_witness :
  ∃ txn,
    TransactionManager.init "t-0" 0 TransactionManager.sample_prompt_input
      TransactionManager.sample_origin ∅ = Ok txn.
Proof.
  apply (proj2 (proj2 (init_rejects_neither_form "t-0" 0
                         TransactionManager.sample_prompt_input
                         TransactionManager.sample_origin ∅))).
  left. exists (<["prompt" := JStr "Hello"]> ∅). split; [reflexivity|].
  by eexists.
Defined.

(** C8 as stated fails at an input carrying both forms at once: [init]
    accepts it. *)
Lemma init_accepts_both_forms_counterexample :
  TransactionManager.carries_prompt TransactionManager.sample_both_input
  ∧ TransactionManager.carries_messages TransactionManager.sample_both_input
  ∧ (∃ txn,
       TransactionManager.init "t-0" 0 TransactionManager.sample_both_input
         TransactionManager.sample_origin ∅ = Ok txn
       ∧ txn !! "input" = Some TransactionManager.sample_both_input)
  ∧ ¬ (∃ e,
         TransactionManager.init "t-0" 0 TransactionManager.sample_both_input
           TransactionManager.sample_origin ∅ = Throw e).
Proof.
  split; [|split; [|split]].
  - eexists. split; [reflexivity|]. by eexists.
  - eexists. split; [reflexivity|]. by eexists.
  - eexists. split; reflexivity.
  - intros [e He]. vm_compute in He. discriminate.
Qed.

(** C9, amended, at options without [numOutputs] and at a stored record
    that lacks it. *)
Lemma numOutputs_defaults_witness :
  (∃ txn,
     TransactionManager.init "t-0" 0 TransactionManager.sample_prompt_input
       TransactionManager.sample_origin ∅ = Ok txn
     ∧ txn !! "numOutputs" = Some (JNum 1))
  ∧ ∃ txns,
      TransactionManager._batchFetch TransactionManager.sample_transactions
        ["t-1"] = Ok txns.
Proof.
  destruct numOutputs_defaults as [Hinit Hfetch]. split.
  - eexists. split; [reflexivity|].
    apply (proj1 (Hinit "t-0" 0%Z TransactionManager.sample_prompt_input
                    TransactionManager.sample_origin ∅ _ eq_refl)).
    left. reflexivity.
  - apply (proj1 (Hfetch TransactionManager.sample_transactions ["t-1"])).
    repeat constructor. by eexists.
Defined.

(** C9 as stated fails at options asking for zero outputs: [init] hands
    the zero on, so [numOutputs] is not a positive integer. *)
Lemma init_numOutputs_zero_counterexample :
  ∃ txn,
    TransactionManager.init "t-0" 0 TransactionManager.sample_prompt_input
      TransactionManager.sample_origin (<["numOutputs" := JNum 0]> ∅) = Ok txn
    ∧ txn !! "numOutputs" = Some (JNum 0)
    ∧ ¬ (∃ n, txn !! "numOutputs" = Some (JNum n) ∧ (0 < n)%Z).
Proof.
  eexists. split; [reflexivity|]. split; [reflexivity|].
  intros (n & Hn & Hpos). vm_compute in Hn. injection Hn as <-. done.
Qed.

(** * Further properties *)

(** ** The OpenAI descriptor: failures, key sets and the two selectors *)

Section OpenAI_more.
Import OpenAI.

Variable cfg : InitConfig.
Variable opts : gmap string value.

Let descriptor : ModelConfig := config (init cfg opts).

(** Reading a property throws only on [undefined] and [null]. *)
Lemma get_throws (v : value) (k : string) (e : exn) :
  get v k = Throw e → (v = JUndefined ∨ v = JNull) ∧ e = TypeError.
Proof.
  destruct v; simpl; repeat case_match; try done; intros [= <-]; eauto.
Qed.

(** X1. An event without a [choices] key, or with an empty [choices]
    array, makes [transformResponse] throw a [TypeError]; whenever it
    returns, [choices[0]] was an object or an array. *)
Theorem transformResponse_without_choice (res : value) :
  (∀ o, res = JObj o →
     o !! "choices" = None ∨ o !! "choices" = Some (JArr []) →
     transformResponse descriptor res = Throw TypeError)
  ∧ (∀ v, transformResponse descriptor res = Ok v →
       ∃ c, first_choice res = Ok c
            ∧ ((∃ o, c = JObj o) ∨ (∃ items, c = JArr items))).
Proof.
  subst descriptor. simpl. unfold init_transformResponse. split.
  - intros o -> [Ho | Ho]; unfold first_choice; simpl; unfold prop;
      by rewrite Ho.
  - intros v. destruct (first_choice res) as [c|e]; simpl; [|done].
    destruct c; simpl; try done; eauto.
Qed.

(** X2. In the [delta] branch the answer is never [undefined], [null] or
    any other falsy value but the empty string. *)
Theorem transformResponse_delta_not_falsy (res v : value)
    (c : gmap string value) :
  first_choice res = Ok (JObj c) →
  is_Some (c !! "delta") →
  transformResponse descriptor res = Ok v →
  truthy v = true ∨ v = JStr "".
Proof.
  intros Hc Hd. subst descriptor. simpl. unfold init_transformResponse.
  rewrite Hc. simpl. rewrite bool_decide_eq_true_2 by done.
  destruct (get (prop c "delta") "content") as [content|e]; simpl; [|done].
  intros [= <-]. unfold or_else.
  destruct (truthy content) eqn:E; [by left | by right].
Qed.

(** X3. [transformForRequest] throws exactly when the request's
    [stop_sequences] is missing, [undefined] or [null], and what it throws
    then is a [TypeError]. *)
Theorem transformForRequest_throws_iff (req meta : gmap string value) :
  ((∃ e, transformForRequest descriptor req meta = Throw e)
   ↔ req !! "stop_sequences" = None
     ∨ req !! "stop_sequences" = Some JUndefined
     ∨ req !! "stop_sequences" = Some JNull)
  ∧ (∀ e, transformForRequest descriptor req meta = Throw e → e = TypeError).
Proof.
  subst descriptor. simpl. unfold init_transformForRequest.
  destruct (get (prop req "stop_sequences") "length") as [len|e] eqn:E;
    simpl.
  - split; [|done]. split; [by intros [e ?]|].
    intros Hs. exfalso. unfold prop in E.
    by destruct Hs as [Hs | [Hs | Hs]]; rewrite Hs in E.
  - apply get_throws in E as [Hs ->]. split; [|by intros e [= <-]].
    split; [intros _|by eauto]. unfold prop in Hs.
    destruct (req !! "stop_sequences") as [s|]; simpl in Hs; [|by left].
    destruct Hs as [-> | ->]; eauto.
Qed.

(** X4. The keys of a payload are those of the request without [modelId],
    [stop_sequences] and [modelProvider], and with [model], [user] and
    [stop]: [stop_sequences] never reaches the provider under that name,
    and the three written keys are always there. *)
Theorem transformForRequest_keys (req meta payload : gmap string value) :
  transformForRequest descriptor req meta = Ok payload →
  dom payload =
    (dom req ∖ {["modelId"; "stop_sequences"; "modelProvider"]})
    ∪ {["model"; "user"; "stop"]}.
Proof.
  subst descriptor. simpl. unfold init_transformForRequest.
  destruct (get (prop req "stop_sequences") "length") as [len|e]; simpl;
    [|done].
  intros [= <-]. rewrite !dom_insert_L, !dom_delete_L.
  apply set_eq. intros j.
  rewrite !elem_of_union, !elem_of_difference, !elem_of_union,
    !elem_of_singleton.
  tauto.
Qed.

(** X5. What the request itself holds under [model], [user] or [stop]
    never reaches the payload: the transform answers the same with and
    without it. *)
Theorem transformForRequest_overwrites (req meta : gmap string value)
    (k : string) (v : value) :
  k ∈ ["model"; "user"; "stop"] →
  transformForRequest descriptor (<[k := v]> req) meta
  = transformForRequest descriptor req meta.
Proof.
  intros Hk. subst descriptor. simpl. unfold init_transformForRequest, prop.
  assert (Hne : k ≠ "modelId" ∧ k ≠ "stop_sequences" ∧ k ≠ "modelProvider").
  { repeat (apply elem_of_cons in Hk as [-> | Hk]); try done.
    by apply elem_of_nil in Hk. }
  destruct Hne as (H1 & H2 & H3).
  rewrite !(lookup_insert_ne req k) by done.
  destruct (get (default JUndefined (req !! "stop_sequences")) "length")
    as [len|e]; simpl; [|done].
  f_equal. apply map_eq. intros j.
  destruct (decide (j = "stop")) as [-> | Hstop];
    [by rewrite !lookup_insert_eq|].
  destruct (decide (j = "user")) as [-> | Huser];
    [by rewrite !(lookup_insert_ne _ "stop"), !lookup_insert_eq|].
  destruct (decide (j = "model")) as [-> | Hmodel];
    [by rewrite !(lookup_insert_ne _ "stop"), !(lookup_insert_ne _ "user"),
       !lookup_insert_eq|].
  rewrite !(lookup_insert_ne _ "stop"), !(lookup_insert_ne _ "user"),
    !(lookup_insert_ne _ "model") by done.
  rewrite !lookup_delete. repeat case_decide; try done.
  apply lookup_insert_ne. intros ->.
  repeat (apply elem_of_cons in Hk as [? | Hk]); try done.
  by apply elem_of_nil in Hk.
Qed.

(** X6. [getPath] answers the chat path while [getModelId] answers the
    completion model exactly when the request has a [messages] key with a
    falsy value ([undefined], [null], an empty string, ...); the opposite
    mismatch never happens, and code-davinci-002 is never selected. *)
Theorem getModelId_getPath_mismatch (req : gmap string value) :
  (getPath descriptor req = "/chat/completions"
   ∧ getModelId descriptor req = OpenAIModelId_value (completionModelId cfg)
   ↔ ∃ v, req !! "messages" = Some v ∧ truthy v = false)
  ∧ ¬ (getPath descriptor req = "/completions"
       ∧ getModelId descriptor req = OpenAIModelId_value (chatModelId cfg))
  ∧ getModelId descriptor req ≠ OpenAIModelId_value Codex.
Proof.
  subst descriptor. simpl.
  unfold init_getPath, init_getModelId, chatModelId, completionModelId, prop.
  destruct (req !! "messages") as [v|] eqn:E; simpl.
  - destruct (truthy v) eqn:Ev, (String.eqb (quality cfg) "low");
      (split; [split; [intros [_ ?] | intros (? & [= <-] & ?)]
              | split; [intros [? ?] | ]]); try done; try congruence; eauto.
  - destruct (String.eqb (quality cfg) "low");
      (split; [split; [intros [? _] | intros (? & ? & _)]
              | split; [intros [_ ?] | ]]); done.
Qed.

End OpenAI_more.

(** ** Config resolution: what is read, what is pruned, what is written *)

Section ConfigManager_more.
Import ConfigManager ConfigWrites.
Context `{Imports}.

Lemma id_given_Some (o : option string) (i : string) :
  id_given o = Some i → o = Some i ∧ i ≠ "".
Proof.
  destruct o as [s|]; simpl; [|done].
  destruct (String.eqb s "") eqn:E; [done|].
  intros [= <-]. by apply String.eqb_neq in E.
Qed.

Lemma id_given_None (o : option string) :
  id_given o = None → o = None ∨ o = Some "".
Proof.
  destruct o as [s|]; simpl; [|by left].
  destruct (String.eqb s "") eqn:E; [|done].
  apply String.eqb_eq in E as ->. by right.
Qed.

Lemma model_given_Some (modelId : option ModelID) (m : ModelID) :
  model_given modelId = Some m →
  modelId = Some m ∧ model_given (Some m) = Some m.
Proof.
  destruct modelId as [m'|]; simpl; [|done].
  destruct (String.eqb (ModelID_value m') "") eqn:E; [done|].
  intros [= <-]. by rewrite E.
Qed.

Lemma spread_fresh (defaults c : Config) :
  session defaults = None → baseUrl defaults = None →
  apiKey defaults = None → spread defaults c = c.
Proof.
  intros Hs Hb Hk. unfold spread. rewrite Hs, Hb, Hk.
  by destruct c as [? ? ? ? [] [] []].
Qed.

Lemma init_fresh (a : AuthType) (modelId : option ModelID) (st : Store) :
  session (init a modelId st).1 = None
  ∧ baseUrl (init a modelId st).1 = None
  ∧ apiKey (init a modelId st).1 = None.
Proof. by destruct a. Qed.

Lemma config_init_models (a : AuthType) (modelId : option ModelID)
    (st : Store) :
  auth (init a modelId st).1 = a
  ∧ models (init a modelId st).1 =
      match a with
      | External => [GPT3; GPT4]
      | APIKey => match model_given modelId with
                  | Some m => [m]
                  | None => []
                  end
      end.
Proof. by destruct a. Qed.

(** X7. [filter] leaves the store as it is and answers exactly the stored
    configs listed under the authentication that pass the model test; an id
    the index lists with no config stored under it is skipped. *)
Theorem filter_lists_stored (a : AuthType) (model : ModelFilter)
    (st : Store) :
  (filter a model st).2 = st
  ∧ ∀ c, c ∈ (filter a model st).1
         ↔ ∃ i, i ∈ byAuth st a ∧ configs st !! i = Some c
                ∧ filter_matches model c.
Proof.
  rewrite filter_run. simpl. split; [done|]. intros c.
  rewrite list_elem_of_In, filter_In, <- list_elem_of_In, list_elem_of_omap.
  assert (Hkeep : filter_keeps model c = true ↔ filter_matches model c).
  { destruct model as [| |m]; simpl.
    - done.
    - rewrite bool_decide_eq_true. split; [apply nil_length_inv|by intros ->].
    - destruct (String.eqb (ModelID_value m) "") eqn:E.
      + split; [by left|done].
      + rewrite bool_decide_eq_true. split; [by right|by intros [?|?]]. }
  rewrite Hkeep. split.
  - intros [(o & Ho & ->) Hm].
    apply list_elem_of_fmap in Ho as (i & Hi & Hin). eauto.
  - intros (i & Hin & Hi & Hm). split; [|done].
    exists (Some c). split; [|done].
    apply list_elem_of_fmap. eauto.
Qed.

(** X8. The config [init] builds for an authentication and a model is
    served by the caller [getCallerForAuth] answers for that authentication
    and model. *)
Theorem init_getCaller (a : AuthType) (modelId : option ModelID)
    (st : Store) :
  getCaller (init a modelId st).1 = getCallerForAuth a modelId.
Proof.
  destruct (config_init_models a modelId st) as [Ha Hm].
  unfold getCaller, getCurrentModel. rewrite Ha, Hm.
  destruct a; [done|].
  destruct (model_given modelId) as [m|] eqn:E; [|by unfold getCallerForAuth; rewrite E].
  rewrite bool_decide_eq_false_2 by (simpl; lia).
  unfold getCallerForAuth. rewrite E.
  apply model_given_Some in E as [_ E]. cbn [head]. by rewrite E.
Qed.

(** X9. A config fresh from [init] is credentialed exactly when it is the
    local one: API-key authentication and no model. *)
Theorem init_isCredentialed (a : AuthType) (modelId : option ModelID)
    (st : Store) :
  isCredentialed (init a modelId st).1 = true
  ↔ a = APIKey ∧ model_given modelId = None.
Proof.
  destruct a; simpl.
  - split; [done|by intros [? _]].
  - unfold isCredentialed. simpl.
    destruct (model_given modelId); simpl; split; try done.
    by intros [_ ?].
Qed.

(** X10. When the handler stored for a model resolves to a stored config,
    [forModel] answers that config as it is stored, and writes nothing to
    the configs, the index, the handlers or the default id. *)
Theorem forModel_stored_handler (modelId : ModelID) (st : Store)
    (i : string) (c : Config) :
  modelHandlers st modelId = Some i → i ≠ "" → configs st !! i = Some c →
  (forModel modelId st).1 = c
  ∧ configs (forModel modelId st).2 = configs st
  ∧ byAuth (forModel modelId st).2 = byAuth st
  ∧ modelHandlers (forModel modelId st).2 = modelHandlers st
  ∧ defaultConfig (forModel modelId st).2 = defaultConfig st.
Proof.
  intros Hh Hi Hc. rewrite forModel_run, Hh. simpl.
  apply String.eqb_neq in Hi. rewrite Hi, Hc.
  destruct (init_fresh (auth c) (Some modelId) st) as (Hs & Hb & Hk).
  split; [by apply spread_fresh|].
  by destruct (init_run (auth c) (Some modelId) st) as (d & -> & _).
Qed.

Local Ltac unchanged :=
  simpl; repeat split; try done; try (intros; by left); try (by left).

(** X11. Resolving a model never writes a config or touches the index:
    [forModelWithDefault] leaves both as they are, and a handler or default
    id it changes is one that pointed at no stored config, which it
    removes. *)
Theorem forModelWithDefault_only_prunes (model : option string)
    (st : Store) :
  let st' := (forModelWithDefault model st).2 in
  configs st' = configs st
  ∧ byAuth st' = byAuth st
  ∧ (∀ m, modelHandlers st' m = modelHandlers st m
          ∨ (modelHandlers st' m = None ∧ dangling_handler st m))
  ∧ (defaultConfig st' = defaultConfig st
     ∨ (defaultConfig st' = None ∧ dangling_default st)).
Proof.
  assert (Hget : ∀ a modelId st0,
            let st' := (getOrInit a modelId st0).2 in
            configs st' = configs st0 ∧ byAuth st' = byAuth st0
            ∧ (∀ m, modelHandlers st' m = modelHandlers st0 m)
            ∧ defaultConfig st' = defaultConfig st0).
  { intros a modelId st0.
    destruct (getOrInit_preserves a modelId st0) as (? & ? & Hh & ?).
    simpl. by rewrite Hh. }
  assert (Hdefault : let st' := (getDefault st).2 in
            configs st' = configs st ∧ byAuth st' = byAuth st
            ∧ (∀ m, modelHandlers st' m = modelHandlers st m
                    ∨ (modelHandlers st' m = None ∧ dangling_handler st m))
            ∧ (defaultConfig st' = defaultConfig st
               ∨ (defaultConfig st' = None ∧ dangling_default st))).
  { simpl. rewrite getDefault_run.
    destruct (id_given (defaultConfig st)) as [i|] eqn:Ei;
      [destruct (configs st !! i) as [c|] eqn:Ec|].
    - unchanged.
    - destruct (Hget External None (defaultConfig_remove st).2)
        as (-> & -> & Hh & ->).
      apply id_given_Some in Ei as [Ei Hi]. simpl.
      repeat split; [intros m; left; by rewrite Hh|].
      right. split; [done|]. exists i. eauto.
    - destruct (Hget External None st) as (-> & -> & Hh & ->).
      unchanged. }
  unfold forModelWithDefault.
  destruct model as [s|]; [|exact Hdefault].
  destruct (String.eqb s ""); [exact Hdefault|].
  destruct (isKnownModel s) as [modelId|].
  - simpl. rewrite forModel_run.
    destruct (id_given (modelHandlers st modelId)) as [i|] eqn:Ei;
      [destruct (configs st !! i) as [c|] eqn:Ec|].
    + destruct (init_run (auth c) (Some modelId) st) as (d & -> & _).
      unchanged.
    + destruct (Hget APIKey (Some modelId) (modelHandlers_remove modelId st).2)
        as (-> & -> & Hh & ->).
      apply id_given_Some in Ei as [Ei Hi]. simpl.
      repeat split; [|by left]. intros m. rewrite Hh. simpl.
      destruct (decide (m = modelId)) as [-> | Hm]; [|by left].
      right. split; [done|]. exists i. eauto.
    + destruct (Hget APIKey (Some modelId) st) as (-> & -> & Hh & ->).
      unchanged.
  - destruct (Hget APIKey None st) as (-> & -> & Hh & ->). unchanged.
Qed.

(** X12. Under API-key authentication the caller and the config URL go by
    the current model together: a config with exactly one model, of
    non-empty name, has that model's caller and key page; a config with no
    model, or with several, has the local caller and the local-model setup
    page. *)
Theorem getCaller_getExternalConfigURL (externalConfigURL : string)
    (c : Config) :
  auth c = APIKey →
  (∀ m, models c = [m] → ModelID_value m ≠ "" →
     getCaller c = modelAPICallers m
     ∧ getExternalConfigURL externalConfigURL c = APIKeyURL m)
  ∧ (models c = [] ∨ 1 < length (models c) →
     getCaller c = local
     ∧ getExternalConfigURL externalConfigURL c
       = "https://github.com/alexanderatallah/window.ai#-local-model-setup").
Proof.
  intros Ha. unfold getCaller, getExternalConfigURL, getCurrentModel.
  rewrite Ha. split.
  - intros m -> Hm. apply String.eqb_neq in Hm. simpl. by rewrite Hm.
  - intros [-> | Hlen]; [done|].
    by rewrite bool_decide_eq_true_2.
Qed.

End ConfigManager_more.

(** ** The default config and its fallback *)

Section Default_resolution.
Import ConfigManager ConfigWrites.
Context `{Imports}.

Lemma init_config_frame (a : AuthType) (modelId : option ModelID)
    (st st' : Store) :
  uuids st = uuids st' → (init a modelId st).1 = (init a modelId st').1.
Proof. intros Hu. destruct a; simpl; by rewrite Hu. Qed.

(** What [getOrInit] answers: the first stored config [forAuthAndModel]
    finds, which is among the stored ones, or the config [init] builds. *)
Lemma getOrInit_stored_or_fresh (a : AuthType) (modelId : option ModelID)
    (st : Store) :
  (∃ i, configs st !! i = Some (getOrInit a modelId st).1)
  ∨ (getOrInit a modelId st).1 = (init a modelId st).1.
Proof.
  pose proof (getOrInit_run a modelId st) as Hrun.
  destruct ((forAuthAndModel a modelId st).1) as [c|] eqn:E; rewrite Hrun.
  - left. apply forAuthAndModel_found in E as [(i & _ & Hc) _]. eauto.
  - by right.
Qed.

Lemma forAuthAndModel_External (st : Store) :
  (forAuthAndModel External None st).1 = head (stored_under st External).
Proof.
  unfold forAuthAndModel. rewrite bind_run. simpl. rewrite filter_run.
  simpl. f_equal. unfold stored_under.
  induction (omap (λ c : option Config, c)
               ((λ i, configs st !! i) <$> byAuth st External))
    as [|c l IH]; [done|]. simpl. by rewrite IH.
Qed.

(** C6, amended. For every model argument [forModelWithDefault] answers a
    config, which is one of the stored configs or one that [init] builds.
    With the model absent (or empty) the answer is the stored default
    config when the stored id resolves to one. Otherwise it is the first
    stored config the index lists under external authentication, whatever
    the authentication of that config, or, when there is none, a fresh
    external config; it has external authentication whenever the index
    lists every config under the authentication it has. *)
Theorem forModelWithDefault_default_or_fallback (model : option string)
    (st : Store) :
  let answer := (forModelWithDefault model st).1 in
  ((∃ i, configs st !! i = Some answer)
   ∨ (∃ a modelId, answer = (init a modelId st).1))
  ∧ (model = None ∨ model = Some "" →
     match default_stored st with
     | Some c => forModelWithDefault model st = (c, st)
     | None =>
         match head (stored_under st External) with
         | Some c => answer = c
         | None =>
             answer = {| id := uuidv4 (uuids st); auth := External;
                         label := "OpenRouter"; models := [GPT3; GPT4];
                         session := None; baseUrl := None; apiKey := None |}
         end
         ∧ (index_consistent st → auth answer = External)
     end).
Proof.
  cbv zeta.
  assert (Hdefault :
    ((∃ i, configs st !! i = Some (getDefault st).1)
     ∨ (∃ a modelId, (getDefault st).1 = (init a modelId st).1))
    ∧ match default_stored st with
      | Some c => getDefault st = (c, st)
      | None =>
          match head (stored_under st External) with
          | Some c => (getDefault st).1 = c
          | None =>
              (getDefault st).1
              = {| id := uuidv4 (uuids st); auth := External;
                   label := "OpenRouter"; models := [GPT3; GPT4];
                   session := None; baseUrl := None; apiKey := None |}
          end
          ∧ (index_consistent st → auth (getDefault st).1 = External)
      end).
  { assert (Hfallback : ∀ st0,
      configs st0 = configs st → byAuth st0 = byAuth st →
      uuids st0 = uuids st →
      ((∃ i, configs st !! i = Some (getOrInit External None st0).1)
       ∨ (∃ a modelId,
            (getOrInit External None st0).1 = (init a modelId st).1))
      ∧ match head (stored_under st External) with
        | Some c => (getOrInit External None st0).1 = c
        | None =>
            (getOrInit External None st0).1
            = {| id := uuidv4 (uuids st); auth := External;
                 label := "OpenRouter"; models := [GPT3; GPT4];
                 session := None; baseUrl := None; apiKey := None |}
        end
        ∧ (index_consistent st →
           auth (getOrInit External None st0).1 = External)).
    { intros st0 Hc Hi Hu. split; [|split].
      - destruct (getOrInit_stored_or_fresh External None st0)
          as [(i & Hstored) | Hfresh].
        + left. exists i. by rewrite <- Hc.
        + right. exists External, None.
          by rewrite Hfresh, (init_config_frame _ _ st0 st).
      - pose proof (getOrInit_run External None st0) as Hrun.
        rewrite forAuthAndModel_External in Hrun.
        assert (stored_under st0 External = stored_under st External) as Hs
          by (unfold stored_under; by rewrite Hc, Hi).
        rewrite Hs in Hrun.
        destruct (head (stored_under st External)) as [c|]; rewrite Hrun;
          [done|].
        simpl. by rewrite Hu.
      - intros Hidx. apply getOrInit_auth.
        intros a i c. rewrite Hc, Hi. apply Hidx. }
    rewrite getDefault_run. unfold default_stored.
    destruct (id_given (defaultConfig st)) as [i|];
      [destruct (configs st !! i) as [c|] eqn:Ec|].
    - split; [|done]. left. eauto.
    - destruct (Hfallback (defaultConfig_remove st).2) as (? & ? & ?); done.
    - destruct (Hfallback st) as (? & ? & ?); done. }
  split.
  - unfold forModelWithDefault.
    destruct model as [s|]; [|exact (proj1 Hdefault)].
    destruct (String.eqb s ""); [exact (proj1 Hdefault)|].
    destruct (isKnownModel s) as [modelId|].
    + rewrite forModel_run.
      destruct (id_given (modelHandlers st modelId)) as [i|];
        [destruct (configs st !! i) as [c|] eqn:Ec|].
      * left. exists i. simpl.
        destruct (init_fresh (auth c) (Some modelId) st) as (Hs & Hb & Hk).
        by rewrite spread_fresh.
      * destruct (getOrInit_stored_or_fresh APIKey (Some modelId)
                    (modelHandlers_remove modelId st).2)
          as [(j & Hstored) | Hfresh]; [left; eauto|].
        right. exists APIKey, (Some modelId).
        by rewrite Hfresh.
      * destruct (getOrInit_stored_or_fresh APIKey (Some modelId) st)
          as [(j & Hstored) | Hfresh]; [left; eauto|].
        right. eauto.
    + destruct (getOrInit_stored_or_fresh APIKey None st)
        as [(j & Hstored) | Hfresh]; [left; eauto|].
      right. eauto.
  - intros Habsent.
    assert (forModelWithDefault model st = getDefault st) as ->
      by (by destruct Habsent as [-> | ->]).
    exact (proj2 Hdefault).
Qed.

End Default_resolution.

(** ** Setting the default config *)

Section setDefault_properties.
Import ConfigManager ConfigWrites.
Context `{Imports}.
Variable super_save : Config → M bool.
Variable indexBy : Config → AuthType → M unit.

Lemma mapM_cons_store {A B} (f : A → M B) (x : A) (l : list A) (st : Store) :
  (mapM f (x :: l) st).2 = (mapM f l (f x st).2).2.
Proof. cbn [mapM]. by rewrite !bind_run. Qed.

(** Registering one id as the handler of a list of models. *)
Lemma set_handlers_run (ms : list ModelID) (i : string) (st : Store) :
  let st' := (mapM (λ m, modelHandlers_set m i) ms st).2 in
  configs st' = configs st ∧ byAuth st' = byAuth st
  ∧ defaultConfig st' = defaultConfig st ∧ uuids st' = uuids st
  ∧ ∀ m, modelHandlers st' m =
           if bool_decide (m ∈ ms) then Some i else modelHandlers st m.
Proof.
  revert st. induction ms as [|m0 ms IH]; intros st; [done|].
  cbv zeta. rewrite mapM_cons_store.
  destruct (IH (modelHandlers_set m0 i st).2) as (Hc & Hi & Hd & Hu & Hh).
  rewrite Hc, Hi, Hd, Hu. repeat split; try done.
  intros m. rewrite Hh. simpl.
  destruct (decide (m = m0)) as [-> | Hne].
  - rewrite (bool_decide_eq_true_2 (m0 ∈ m0 :: ms)) by apply list_elem_of_here.
    by case_bool_decide.
  - case_bool_decide as Hin.
    + by rewrite bool_decide_eq_true_2 by (by apply list_elem_of_further).
    + rewrite bool_decide_eq_false_2; [done|].
      by intros [? | ?]%elem_of_cons.
Qed.

(** The store [setDefault] leaves, and the events it sends. *)
Lemma setDefault_run (config : Config) (st : Store) :
  let st1 := (save super_save indexBy config st).2 in
  let st' := (setDefault super_save indexBy config st).2 in
  configs st' = configs st1 ∧ byAuth st' = byAuth st1
  ∧ defaultConfig st' = Some (id config)
  ∧ (∀ m, modelHandlers st' m =
            if bool_decide (m ∈ models config) then Some (id config)
            else modelHandlers st1 m)
  ∧ (setDefault super_save indexBy config st).1 =
      if bool_decide (defaultConfig st1 ≠ Some (id config))
      then [ModelChanged (getCurrentModel config)] else [].
Proof.
  simpl. unfold setDefault. rewrite bind_run.
  set (st1 := (save super_save indexBy config st).2). simpl.
  rewrite bind_run.
  destruct (set_handlers_run (models config) (id config) st1)
    as (Hc & Hi & Hd & Hu & Hh).
  set (st2 := (mapM (λ m, modelHandlers_set m (id config))
                 (models config) st1).2) in *.
  rewrite bind_run. simpl. rewrite bind_run. simpl. rewrite Hd.
  by case_bool_decide.
Qed.

(** X13. After [setDefault(config)], with the base class storing the
    config under its non-empty id, [getDefault] answers that config and
    writes nothing. *)
Theorem setDefault_getDefault (config : Config) (st : Store) :
  save_stores super_save indexBy config st → id config ≠ "" →
  let st' := (setDefault super_save indexBy config st).2 in
  getDefault st' = (config, st').
Proof.
  intros (Hstored & _ & _) Hid. simpl.
  destruct (setDefault_run config st) as (Hc & _ & Hd & _).
  rewrite getDefault_run, Hd. simpl.
  apply String.eqb_neq in Hid. by rewrite Hid, Hc, Hstored.
Qed.

(** X14. After [setDefault(config)], with the base class storing the
    config under its non-empty id, [forModel] answers that config for each
    of its models, and every other model keeps the handler it had. *)
Theorem setDefault_forModel (config : Config) (st : Store) :
  save_stores super_save indexBy config st → id config ≠ "" →
  let st' := (setDefault super_save indexBy config st).2 in
  (∀ m, m ∈ models config → (forModel m st').1 = config)
  ∧ (∀ m, m ∉ models config → modelHandlers st' m = modelHandlers st m).
Proof.
  intros (Hstored & Hhandlers & _) Hid. simpl.
  destruct (setDefault_run config st) as (Hc & _ & _ & Hh & _).
  split.
  - intros m Hm. rewrite forModel_run, Hh, bool_decide_eq_true_2 by done.
    simpl. apply String.eqb_neq in Hid. rewrite Hid, Hc, Hstored. simpl.
    set (st' := (setDefault super_save indexBy config st).2).
    destruct (init_fresh (auth config) (Some m) st') as (Hs & Hb & Hk).
    by apply spread_fresh.
  - intros m Hm. by rewrite Hh, bool_decide_eq_false_2, Hhandlers.
Qed.

(** X15. [setDefault(config)] sends no event when [config] already was the
    default, and otherwise exactly one [ModelChanged] event, carrying the
    current model of [config]. *)
Theorem setDefault_events (config : Config) (st : Store) :
  save_stores super_save indexBy config st →
  (defaultConfig st = Some (id config) →
     (setDefault super_save indexBy config st).1 = [])
  ∧ (defaultConfig st ≠ Some (id config) →
     (setDefault super_save indexBy config st).1
     = [ModelChanged (getCurrentModel config)]).
Proof.
  intros (_ & _ & Hdefault).
  destruct (setDefault_run config st) as (_ & _ & _ & _ & ->).
  rewrite Hdefault. split; intros Hd.
  - by rewrite bool_decide_eq_false_2 by (by intros ?).
  - by rewrite bool_decide_eq_true_2.
Qed.

End setDefault_properties.

(** ** Transactions: fetching, the JSON form, the routed model, formatting *)

Section TransactionManager_more.
Import TransactionManager TransactionFormat.

(** X16. [_batchFetch] throws exactly when some id of the batch is not
    stored, what it throws is a [TypeError], and when it returns it hands
    out as many records as there are ids. *)
Theorem _batchFetch_throws_iff (store : gmap string (gmap string value))
    (ids : list string) :
  ((∃ e, _batchFetch store ids = Throw e)
   ↔ ∃ id, id ∈ ids ∧ store !! id = None)
  ∧ (∀ e, _batchFetch store ids = Throw e → e = TypeError)
  ∧ (∀ txns, _batchFetch store ids = Ok txns → length txns = length ids).
Proof.
  induction ids as [|id ids (IHiff & IHe & IHlen)].
  - split; [split|split].
    + by intros [e ?].
    + by intros (id & ?%elem_of_nil & _).
    + done.
    + by intros txns [= <-].
  - rewrite _batchFetch_cons, fetch_one_run.
    destruct (store !! id) as [raw|] eqn:E; simpl;
      [destruct (_batchFetch store ids) as [ts|e0]; simpl|].
    + split; [split|split].
      * by intros [e ?].
      * intros (id' & [-> | Hin]%elem_of_cons & Hnone); [congruence|].
        destruct (proj2 IHiff) as [e ?]; [eauto|done].
      * done.
      * intros txns [= <-]. simpl. f_equal. by apply IHlen.
    + split; [split|split].
      * intros _. destruct (proj1 IHiff) as (id' & Hin & Hnone); [eauto|].
        exists id'. split; [by apply list_elem_of_further|done].
      * by eauto.
      * intros e [= <-]. by apply IHe.
      * done.
    + split; [split|split].
      * intros _. exists id. split; [apply list_elem_of_here|done].
      * by eauto.
      * by intros e [= <-].
      * done.
Qed.

Lemma backfilled_idempotent (raw : gmap string value) :
  backfilled (backfilled raw) = backfilled raw.
Proof.
  unfold backfilled at 1.
  destruct (backfilled_numOutputs raw) as (v & Hv & Hne).
  unfold prop. rewrite Hv. simpl. by destruct v.
Qed.

(** X17. Fetching is stable: from any store that holds, under each id of
    the batch, the record a fetch handed out for it, the same fetch hands
    out the same records again; and a fetched record differs from the
    stored one at most in [numOutputs]. *)
Theorem _batchFetch_stable (store store' : gmap string (gmap string value))
    (ids : list string) (txns : list (gmap string value)) :
  _batchFetch store ids = Ok txns →
  (Forall2 (λ id t, store' !! id = Some t) ids txns →
     _batchFetch store' ids = Ok txns)
  ∧ Forall2 (λ id t, ∃ raw : gmap string value,
               store !! id = Some raw
               ∧ ∀ k, k ≠ "numOutputs" → t !! k = raw !! k) ids txns.
Proof.
  intros Hfetch.
  destruct (_batchFetch_run store ids) as [_ Hall].
  specialize (Hall txns Hfetch). clear Hfetch. split.
  - intros Hstored.
    induction Hall as [|id t ids txns (raw & Hraw & ->) Hall IH];
      [done|].
    apply Forall2_cons in Hstored as [Ht Hstored].
    rewrite _batchFetch_cons, fetch_one_run, Ht. simpl.
    by rewrite (IH Hstored), backfilled_idempotent.
  - eapply Forall2_impl; [exact Hall|].
    intros id t (raw & Hraw & ->). exists raw. split; [done|].
    intros k Hk. unfold backfilled.
    destruct (is_undefined (prop raw "numOutputs")); [|done].
    by rewrite lookup_insert_ne.
Qed.

(** X18. The JSON form of a transaction has the six keys [input],
    [temperature], [maxTokens], [stopSequences], [model] and [numOutputs]
    and no other, so never the id, the origin, the timestamp, the outputs or
    the error; for a transaction fresh from [init] it holds the input and
    what the options give, with [numOutputs] defaulted, whatever the id, the
    time and the origin were. *)
Theorem formatJSON_init (uuid : string) (now : Z) (input origin : value)
    (options txn : gmap string value) :
  dom (formatJSON txn)
  = {["input"; "temperature"; "maxTokens"; "stopSequences"; "model";
      "numOutputs"]}
  ∧ (init uuid now input origin options = Ok txn →
     formatJSON txn =
       <["input" := input]>
       (<["temperature" := prop options "temperature"]>
       (<["maxTokens" := prop options "maxTokens"]>
       (<["stopSequences" := prop options "stopSequences"]>
       (<["model" := prop options "model"]>
       (<["numOutputs" := prop_default options "numOutputs" (JNum 1)]>
        ∅)))))).
Proof.
  split.
  - unfold formatJSON. rewrite !dom_insert_L, dom_empty_L.
    apply set_eq. intros j.
    rewrite !elem_of_union, !elem_of_singleton, elem_of_empty. tauto.
  - unfold init. destruct (_validateInput input) as [[]|e]; simpl; [|done].
    intros [= <-]. unfold formatJSON, prop. by simplify_map_eq.
Qed.

(** X19. The routed model of a transaction is its [routedModel] when that
    is a non-empty string, and its [model] when [routedModel] is missing or
    empty; for a transaction fresh from [init] it is the model the options
    ask for. *)
Theorem getRoutedModel_cases (txn : gmap string value) :
  (∀ routed, txn !! "routedModel" = Some (JStr routed) → routed ≠ "" →
     getRoutedModel txn = JStr routed)
  ∧ (txn !! "routedModel" = None ∨ txn !! "routedModel" = Some (JStr "") →
     getRoutedModel txn = prop txn "model")
  ∧ (∀ uuid now input origin options,
       init uuid now input origin options = Ok txn →
       getRoutedModel txn = prop options "model").
Proof.
  unfold getRoutedModel, or_else, prop. repeat split.
  - intros routed -> Hne. simpl. apply String.eqb_neq in Hne.
    by rewrite Hne.
  - by intros [-> | ->].
  - intros uuid now input origin options. unfold init.
    destruct (_validateInput input) as [[]|e]; simpl; [|done].
    intros [= <-]. by simplify_map_eq.
Qed.

End TransactionManager_more.

Section Formatting_properties.
Import TransactionManager TransactionFormat.

Variable ToString : value → string.
Variable isMediaOutput : value → result bool.
Variable isTextOutput : value → result bool.

(** X20. [formatInput] goes by the [prompt] key first: an input with a
    prompt is shown as that prompt, whether or not it also carries
    messages; an empty message list is shown as the empty string; and an
    input with neither key makes it throw a [TypeError]. *)
Theorem formatInput_prompt_first (txn o : gmap string value) :
  txn !! "input" = Some (JObj o) →
  (∀ p, o !! "prompt" = Some p → formatInput ToString txn = Ok p)
  ∧ (o !! "prompt" = None → o !! "messages" = Some (JArr []) →
     formatInput ToString txn = Ok (JStr ""))
  ∧ (o !! "prompt" = None → o !! "messages" = None →
     formatInput ToString txn = Throw TypeError).
Proof.
  intros Hinput. unfold formatInput, prop. rewrite Hinput. simpl.
  split; [|split].
  - intros p Hp. rewrite bool_decide_eq_true_2 by (rewrite Hp; eauto).
    unfold prop. by rewrite Hp.
  - intros Hp Hm. rewrite bool_decide_eq_false_2 by (rewrite Hp; by intros [? ?]).
    unfold prop. by rewrite Hm.
  - intros Hp Hm. rewrite bool_decide_eq_false_2 by (rewrite Hp; by intros [? ?]).
    unfold prop. by rewrite Hm.
Qed.

Lemma mapM_chat_messages (msgs : list (string * string)) :
  (∀ s, ToString (JStr s) = s) →
  mapM (λ m, role ← get m "role";
             content ← get m "content";
             ret (JStr (labelled ToString role content)))
    ((λ rc, chat_message rc.1 rc.2) <$> msgs)
  = Ok ((λ rc, JStr (String.append rc.1 (String.append ": " rc.2))) <$> msgs).
Proof.
  intros Hstr. induction msgs as [|[role content] msgs IH]; [done|].
  cbn [fmap list_fmap mapM]. rewrite IH. simpl.
  unfold labelled, prop, chat_message. simpl.
  rewrite lookup_insert_eq, lookup_insert_ne, lookup_insert_eq by done.
  simpl. by rewrite !Hstr.
Qed.

(** X21. With a string conversion that leaves strings as they are, an
    input without a prompt whose messages have string roles and contents is
    shown as the lines ["role: content"], in the order of the messages,
    joined by newlines. *)
Theorem formatInput_messages (txn o : gmap string value)
    (msgs : list (string * string)) :
  (∀ s, ToString (JStr s) = s) →
  txn !! "input" = Some (JObj o) →
  o !! "prompt" = None →
  o !! "messages" = Some (JArr ((λ rc, chat_message rc.1 rc.2) <$> msgs)) →
  formatInput ToString txn
  = Ok (JStr (String.concat newline
                ((λ rc, String.append rc.1 (String.append ": " rc.2))
                   <$> msgs))).
Proof.
  intros Hstr Hinput Hp Hm. unfold formatInput, prop. rewrite Hinput. simpl.
  rewrite bool_decide_eq_false_2 by (rewrite Hp; by intros [? ?]).
  unfold prop. rewrite Hm. simpl. unfold array_map.
  rewrite (mapM_chat_messages msgs Hstr). simpl. do 2 f_equal.
  unfold join. f_equal. clear Hm.
  induction msgs as [|[role content] msgs IH]; [done|].
  cbn [fmap list_fmap List.map]. rewrite Hstr. f_equal. exact IH.
Qed.

(** X22. [formatOutput] answers [undefined] for a transaction without
    outputs, as every transaction fresh from [init] is, and the empty
    string for one whose outputs are an empty array. *)
Theorem formatOutput_no_outputs (txn : gmap string value) :
  (txn !! "outputs" = None →
     formatOutput ToString isMediaOutput isTextOutput txn = Ok JUndefined)
  ∧ (∀ uuid now input origin options,
       init uuid now input origin options = Ok txn →
       formatOutput ToString isMediaOutput isTextOutput txn = Ok JUndefined)
  ∧ (txn !! "outputs" = Some (JArr []) →
     formatOutput ToString isMediaOutput isTextOutput txn = Ok (JStr "")).
Proof.
  unfold formatOutput, prop. split; [|split].
  - by intros ->.
  - intros uuid now input origin options Hinit.
    pose proof (transaction_init_run uuid now input origin options) as Hrun.
    destruct (_validateInput input); [|congruence].
    destruct Hrun as (txn' & Htxn & _ & Ho & _).
    assert (txn' = txn) as -> by congruence. by rewrite Ho.
  - by intros ->.
Qed.

End Formatting_properties.

(** ** The terminal prompt *)

Section WebVM_properties.
Import WebVM.

Lemma str_ge_single (data : list N) (c : N) :
  str_ge data [c] = true
  ↔ ∃ d rest, data = d :: rest ∧ (c ≤ d)%N.
Proof.
  unfold str_ge. destruct data as [|d rest]; simpl.
  - split; [done|]. by intros (? & ? & ? & _).
  - destruct (d <? c)%N eqn:E1; simpl.
    + apply N.ltb_lt in E1. split; [done|].
      intros (? & ? & [= <- <-] & ?). lia.
    + apply N.ltb_ge in E1.
      assert (str_lt rest [] = false) as Hnil by (by destruct rest).
      destruct (c <? d)%N; rewrite ?Hnil; simpl; split; eauto.
Qed.

Lemma str_le_single (data : list N) (c : N) :
  str_le data [c] = true
  ↔ data = [] ∨ ∃ d rest, data = d :: rest
                           ∧ ((d < c)%N ∨ (d = c ∧ rest = [])).
Proof.
  unfold str_le. destruct data as [|d rest]; simpl.
  - split; [by left|done].
  - destruct (c <? d)%N eqn:E1; simpl.
    + apply N.ltb_lt in E1. split; [done|].
      intros [? | (? & ? & [= <- <-] & [? | [? _]])]; [done|lia|lia].
    + apply N.ltb_ge in E1. destruct (d <? c)%N eqn:E2; simpl.
      * apply N.ltb_lt in E2. split; [|done]. intros _. right. eauto.
      * apply N.ltb_ge in E2. assert (d = c) as -> by lia.
        destruct rest as [|r rest]; simpl.
        -- split; [|done]. intros _. right. eauto 10.
        -- split; [done|].
           intros [? | (? & ? & [= <- <-] & [? | [_ ?]])]; [done|lia|done].
Qed.

Lemma recorded_chunk (data : list N) :
  (∃ d rest, data = d :: rest
             ∧ ((32 ≤ d ∧ d < 126)%N ∨ (d = 126%N ∧ rest = [])
                ∨ (160 ≤ d)%N)) →
  recorded data = true.
Proof.
  unfold recorded.
  rewrite orb_true_iff, andb_true_iff, !str_ge_single, str_le_single.
  intros (d & rest & -> & [[? ?] | [[-> ->] | ?]]).
  - left. split; [by eauto|]. right. exists d, rest. eauto.
  - left. split; [exists 126%N, []; split; [done|lia]|].
    right. exists 126%N, []. eauto.
  - right. eauto.
Qed.

(** X23. A chunk of data is added to the prompt exactly when it is not
    empty and its first code unit lies in [0x20 .. 0x7D], or is [0xA0] or
    more, or the chunk is the single character ["~"]: control characters,
    escape sequences and a chunk that starts with ["~"] and goes on are
    passed to the shell without being recorded. *)
Theorem recorded_iff (data : list N) :
  recorded data = true
  ↔ ∃ d rest, data = d :: rest
              ∧ ((32 ≤ d ∧ d < 126)%N ∨ (d = 126%N ∧ rest = [])
                 ∨ (160 ≤ d)%N).
Proof.
  split; [|apply recorded_chunk].
  unfold recorded.
  rewrite orb_true_iff, andb_true_iff, !str_ge_single, str_le_single.
  intros [[(d & rest & -> & Hge) Hle] | (d & rest & -> & Hge)].
  - destruct Hle as [? | (? & ? & [= <- <-] & Hle)]; [done|].
    exists d, rest. split; [done|].
    destruct Hle as [? | [-> ->]]; [left; lia | right; by left].
  - exists d, rest. eauto.
Qed.

Lemma onData_printable (prompt : list N) (c : N) :
  printable c →
  onData prompt [c] = ([InputWrite [c]], (prompt ++ [c])%list).
Proof.
  intros Hc. unfold onData.
  destruct (decide ([c] = [13%N])) as [[= ->] | _];
    [destruct Hc; lia|].
  destruct (decide ([c] = [127%N])) as [[= ->] | _];
    [destruct Hc; lia|].
  assert (recorded [c] = true) as ->; [|done].
  apply recorded_chunk. exists c, []. split; [done|].
  destruct Hc as [[? ?] | ?]; [|by right; right].
  destruct (decide (c = 126%N)) as [-> | ?]; [right; by left | left; lia].
Qed.

(** X25. Backspace takes the last code unit off the prompt, so it undoes
    a printable character just typed; on an empty prompt it changes
    nothing; either way the key is passed on to the shell. *)
Theorem backspace_undoes (prompt : list N) :
  (onData prompt [127%N]).1 = [InputWrite [127%N]]
  ∧ (∀ c, printable c →
       (onData (onData prompt [c]).2 [127%N]).2 = prompt)
  ∧ (∀ c, (onData (prompt ++ [c])%list [127%N]).2 = prompt)
  ∧ (onData [] [127%N]).2 = [].
Proof.
  assert (Hdrop : ∀ c, (onData (prompt ++ [c])%list [127%N]).2 = prompt).
  { intros c. unfold onData. simpl.
    rewrite bool_decide_eq_true_2 by (rewrite length_app; simpl; lia).
    unfold drop_last. rewrite length_app. simpl.
    replace (length prompt + 1 - 1) with (length prompt) by lia.
    by rewrite take_app_length. }
  split; [done|]. split; [|split; [done|done]].
  intros c Hc. rewrite (onData_printable _ _ Hc). simpl. apply Hdrop.
Qed.

End WebVM_properties.

(** ** The default config and its fallback at sample data *)

(** C6, amended, with the model absent: the stored default on the sample
    store, and the first config listed under external authentication on the
    sample store without a default id. *)
Lemma forModelWithDefault_default_or_fallback_witness :
  @ConfigManager.forModelWithDefault ConfigManager.sample_imports None
    ConfigManager.sample_store
  = (ConfigManager.sample_external_config, ConfigManager.sample_store)
  ∧ (@ConfigManager.forModelWithDefault ConfigManager.sample_imports None
       ConfigWrites.sample_store_without_default).1
    = ConfigManager.sample_external_config.
Proof.
  split.
  - exact (proj2 (@forModelWithDefault_default_or_fallback
                    ConfigManager.sample_imports None
                    ConfigManager.sample_store)
             (or_introl eq_refl)).
  - exact (proj1 (proj2 (@forModelWithDefault_default_or_fallback
                           ConfigManager.sample_imports None
                           ConfigWrites.sample_store_without_default)
                    (or_introl eq_refl))).
Defined.

(** C6 as stated fails on a store with no default id whose index lists an
    API-key config under external authentication: the fallback answers that
    config, which is no external-session config. *)
Lemma forModelWithDefault_misfiled_counterexample :
  ConfigManager.defaultConfig ConfigWrites.misfiled_store = None
  ∧ (@ConfigManager.forModelWithDefault ConfigManager.sample_imports None
       ConfigWrites.misfiled_store).1
    = ConfigManager.sample_local_config
  ∧ ConfigManager.auth
      (@ConfigManager.forModelWithDefault ConfigManager.sample_imports None
         ConfigWrites.misfiled_store).1
    = ConfigManager.APIKey
  ∧ ConfigManager.auth
      (@ConfigManager.forModelWithDefault ConfigManager.sample_imports None
         ConfigWrites.misfiled_store).1
    ≠ ConfigManager.External.
Proof. repeat split. discriminate. Qed.

(** ** The further properties at sample data *)

(** X1 at the event [{}]. *)
Lemma transformResponse_without_choice_witness :
  OpenAI.transformResponse
    (OpenAI.config (OpenAI.init {| OpenAI.quality := "low"; OpenAI.debug := false |} ∅))
    (JObj ∅) = Throw TypeError.
Proof.
  apply (proj1 (transformResponse_without_choice
                  {| OpenAI.quality := "low"; OpenAI.debug := false |} ∅
                  (JObj ∅)) ∅ eq_refl).
  left. reflexivity.
Defined.

(** X2 at the sample streaming event. *)
Lemma transformResponse_delta_not_falsy_witness :
  truthy (JStr "Hi") = true ∨ JStr "Hi" = JStr "".
Proof.
  apply (transformResponse_delta_not_falsy
           {| OpenAI.quality := "low"; OpenAI.debug := false |} ∅
           OpenAI.sample_delta_event (JStr "Hi") OpenAI.sample_delta_choice).
  - reflexivity.
  - by eexists.
  - reflexivity.
Defined.

(** X3 at a request without [stop_sequences]. *)
Lemma transformForRequest_throws_iff_witness :
  ∃ e, OpenAI.transformForRequest
         (OpenAI.config (OpenAI.init {| OpenAI.quality := "low"; OpenAI.debug := false |} ∅))
         (<["prompt" := JStr "Hello"]> ∅) OpenAI.sample_meta = Throw e.
Proof.
  apply (proj1 (transformForRequest_throws_iff
                  {| OpenAI.quality := "low"; OpenAI.debug := false |} ∅
                  (<["prompt" := JStr "Hello"]> ∅) OpenAI.sample_meta)).
  left. reflexivity.
Defined.

(** X4 at the sample chat request. *)
Lemma transformForRequest_keys_witness :
  ∃ payload : gmap string value,
    OpenAI.transformForRequest
      (OpenAI.config (OpenAI.init {| OpenAI.quality := "low"; OpenAI.debug := false |} ∅))
      OpenAI.sample_chat_request OpenAI.sample_meta = Ok payload
    ∧ dom payload =
        (dom OpenAI.sample_chat_request
           ∖ {["modelId"; "stop_sequences"; "modelProvider"]})
        ∪ {["model"; "user"; "stop"]}.
Proof.
  eexists. split; [reflexivity|].
  exact (transformForRequest_keys
           {| OpenAI.quality := "low"; OpenAI.debug := false |} ∅
           OpenAI.sample_chat_request OpenAI.sample_meta _ eq_refl).
Defined.

(** X5 at the sample chat request with a [model] of its own. *)
Lemma transformForRequest_overwrites_witness :
  OpenAI.transformForRequest
    (OpenAI.config (OpenAI.init {| OpenAI.quality := "low"; OpenAI.debug := false |} ∅))
    (<["model" := JStr "mine"]> OpenAI.sample_chat_request) OpenAI.sample_meta
  = OpenAI.transformForRequest
      (OpenAI.config (OpenAI.init {| OpenAI.quality := "low"; OpenAI.debug := false |} ∅))
      OpenAI.sample_chat_request OpenAI.sample_meta.
Proof.
  apply (transformForRequest_overwrites
           {| OpenAI.quality := "low"; OpenAI.debug := false |} ∅).
  apply list_elem_of_here.
Defined.

(** X6 at the request [{prompt: "Hello", messages: undefined}]. *)
Lemma getModelId_getPath_mismatch_witness :
  OpenAI.getPath
    (OpenAI.config (OpenAI.init {| OpenAI.quality := "low"; OpenAI.debug := false |} ∅))
    (<["prompt" := JStr "Hello"]> (<["messages" := JUndefined]> ∅))
  = "/chat/completions"
  ∧ OpenAI.getModelId
      (OpenAI.config (OpenAI.init {| OpenAI.quality := "low"; OpenAI.debug := false |} ∅))
      (<["prompt" := JStr "Hello"]> (<["messages" := JUndefined]> ∅))
    = "text-curie-001".
Proof.
  apply (proj1 (getModelId_getPath_mismatch
                  {| OpenAI.quality := "low"; OpenAI.debug := false |} ∅
                  (<["prompt" := JStr "Hello"]>
                     (<["messages" := JUndefined]> ∅)))).
  exists JUndefined. split; reflexivity.
Defined.

(** X7 on the sample store: the configs without models under API-key
    authentication. *)
Lemma filter_lists_stored_witness :
  ConfigManager.sample_local_config
  ∈ (@ConfigManager.filter ConfigManager.sample_imports ConfigManager.APIKey
       ConfigManager.NoModels ConfigManager.sample_store).1.
Proof.
  apply (proj2 (@filter_lists_stored ConfigManager.sample_imports
                  ConfigManager.APIKey ConfigManager.NoModels
                  ConfigManager.sample_store)).
  exists "cfg-2". split; [|split; reflexivity].
  apply list_elem_of_further, list_elem_of_here.
Defined.

(** X9 at a local config fresh from [init]. *)
Lemma init_isCredentialed_witness :
  ConfigManager.isCredentialed
    (@ConfigManager.init ConfigManager.sample_imports ConfigManager.APIKey
       None ConfigManager.sample_store).1 = true.
Proof.
  apply (@init_isCredentialed ConfigManager.sample_imports).
  split; reflexivity.
Defined.

(** X10 at [ModelID.GPT4] on the sample store. *)
Lemma forModel_stored_handler_witness :
  (@ConfigManager.forModel ConfigManager.sample_imports ConfigManager.GPT4
     ConfigManager.sample_store).1 = ConfigManager.sample_key_config.
Proof.
  apply (@forModel_stored_handler ConfigManager.sample_imports
           ConfigManager.GPT4 ConfigManager.sample_store "cfg-1"
           ConfigManager.sample_key_config).
  - reflexivity.
  - discriminate.
  - reflexivity.
Defined.

(** X12 at the sample API-key config. *)
Lemma getCaller_getExternalConfigURL_witness :
  @ConfigManager.getCaller ConfigManager.sample_imports
    ConfigManager.sample_key_config = "openai"
  ∧ @ConfigWrites.getExternalConfigURL ConfigManager.sample_imports
      "https://windowai.io/" ConfigManager.sample_key_config
    = "https://platform.openai.com/account/api-keys".
Proof.
  apply (proj1 (@getCaller_getExternalConfigURL ConfigManager.sample_imports
                  "https://windowai.io/" ConfigManager.sample_key_config
                  eq_refl) ConfigManager.GPT4).
  - reflexivity.
  - discriminate.
Defined.

Lemma sample_save_stores :
  @ConfigWrites.save_stores ConfigManager.sample_imports
    ConfigWrites.sample_super_save ConfigWrites.sample_indexBy
    ConfigWrites.sample_new_config ConfigManager.sample_store.
Proof. repeat split. Qed.

(** X13 at a new config on the sample store. *)
Lemma setDefault_getDefault_witness :
  (@ConfigManager.getDefault ConfigManager.sample_imports
     (ConfigWrites.setDefault ConfigWrites.sample_super_save ConfigWrites.sample_indexBy
        ConfigWrites.sample_new_config ConfigManager.sample_store).2).1
  = ConfigWrites.sample_new_config.
Proof.
  rewrite (@setDefault_getDefault ConfigManager.sample_imports
             ConfigWrites.sample_super_save ConfigWrites.sample_indexBy
             ConfigWrites.sample_new_config ConfigManager.sample_store
             sample_save_stores).
  - reflexivity.
  - discriminate.
Defined.

(** X14 at a new config on the sample store. *)
Lemma setDefault_forModel_witness :
  (@ConfigManager.forModel ConfigManager.sample_imports ConfigManager.Cohere
     (ConfigWrites.setDefault ConfigWrites.sample_super_save ConfigWrites.sample_indexBy
        ConfigWrites.sample_new_config ConfigManager.sample_store).2).1
  = ConfigWrites.sample_new_config.
Proof.
  apply (@setDefault_forModel ConfigManager.sample_imports
           ConfigWrites.sample_super_save ConfigWrites.sample_indexBy
           ConfigWrites.sample_new_config ConfigManager.sample_store
           sample_save_stores).
  - discriminate.
  - apply list_elem_of_here.
Defined.

(** X15 at a new config on the sample store, whose default was another. *)
Lemma setDefault_events_witness :
  (ConfigWrites.setDefault ConfigWrites.sample_super_save ConfigWrites.sample_indexBy
     ConfigWrites.sample_new_config ConfigManager.sample_store).1
  = [ConfigWrites.ModelChanged (Some ConfigManager.Cohere)].
Proof.
  apply (@setDefault_events ConfigManager.sample_imports
           ConfigWrites.sample_super_save ConfigWrites.sample_indexBy
           ConfigWrites.sample_new_config ConfigManager.sample_store
           sample_save_stores).
  discriminate.
Defined.

(** X16 at a batch with an id that is not stored. *)
Lemma _batchFetch_throws_iff_witness :
  ∃ e, TransactionManager._batchFetch TransactionManager.sample_transactions
         ["t-1"; "t-2"] = Throw e.
Proof.
  apply (proj1 (_batchFetch_throws_iff TransactionManager.sample_transactions
                  ["t-1"; "t-2"])).
  exists "t-2". split; [|reflexivity].
  apply list_elem_of_further, list_elem_of_here.
Defined.

(** X17 at the sample record, fetched and written back. *)
Lemma _batchFetch_stable_witness :
  TransactionManager._batchFetch
    (<["t-1" := TransactionManager.backfilled
                  TransactionManager.sample_old_record]> ∅)
    ["t-1"]
  = Ok [TransactionManager.backfilled TransactionManager.sample_old_record].
Proof.
  apply (proj1 (_batchFetch_stable TransactionManager.sample_transactions
                  (<["t-1" := TransactionManager.backfilled
                                TransactionManager.sample_old_record]> ∅)
                  ["t-1"]
                  [TransactionManager.backfilled
                     TransactionManager.sample_old_record]
                  eq_refl)).
  repeat constructor.
Defined.

(** X18 at a transaction for the sample prompt. *)
Lemma formatJSON_init_witness :
  ∃ txn,
    TransactionManager.init "t-0" 0 TransactionManager.sample_prompt_input
      TransactionManager.sample_origin (<["model" := JStr "gpt-4"]> ∅) = Ok txn
    ∧ TransactionFormat.formatJSON txn !! "model" = Some (JStr "gpt-4")
    ∧ TransactionFormat.formatJSON txn !! "numOutputs" = Some (JNum 1)
    ∧ TransactionFormat.formatJSON txn !! "id" = None.
Proof.
  eexists. split; [reflexivity|].
  rewrite (proj2 (formatJSON_init "t-0" 0
                    TransactionManager.sample_prompt_input
                    TransactionManager.sample_origin
                    (<["model" := JStr "gpt-4"]> ∅) _) eq_refl).
  repeat split.
Defined.

(** X19 at a transaction for the sample prompt. *)
Lemma getRoutedModel_cases_witness :
  ∃ txn,
    TransactionManager.init "t-0" 0 TransactionManager.sample_prompt_input
      TransactionManager.sample_origin (<["model" := JStr "gpt-4"]> ∅) = Ok txn
    ∧ TransactionFormat.getRoutedModel txn = JStr "gpt-4"
    ∧ TransactionFormat.getRoutedModel (<["routedModel" := JStr "gpt-3.5"]> txn)
      = JStr "gpt-3.5".
Proof.
  eexists. split; [reflexivity|]. split.
  - exact (proj2 (proj2 (getRoutedModel_cases _)) "t-0" 0%Z
             TransactionManager.sample_prompt_input
             TransactionManager.sample_origin
             (<["model" := JStr "gpt-4"]> ∅) eq_refl).
  - apply (proj1 (getRoutedModel_cases _) "gpt-3.5");
      [reflexivity | discriminate].
Defined.

(** X20 at an input carrying both a prompt and messages. *)
Lemma formatInput_prompt_first_witness :
  TransactionFormat.formatInput TransactionFormat.sample_ToString
    (<["input" := TransactionManager.sample_both_input]> ∅)
  = Ok (JStr "Hello").
Proof.
  assert (Hinput : (<["input" := TransactionManager.sample_both_input]> ∅
                      : gmap string value) !! "input"
                   = Some (JObj TransactionFormat.sample_both_fields))
    by reflexivity.
  apply (proj1 (formatInput_prompt_first TransactionFormat.sample_ToString
                  _ _ Hinput)).
  reflexivity.
Defined.

(** X21 at the sample messages. *)
Lemma formatInput_messages_witness :
  TransactionFormat.formatInput TransactionFormat.sample_ToString
    (<["input" := TransactionFormat.sample_messages_input]> ∅)
  = Ok (JStr (String.concat TransactionFormat.newline
                ["system: Be brief"; "user: Hello"])).
Proof.
  apply (formatInput_messages TransactionFormat.sample_ToString
           (<["input" := TransactionFormat.sample_messages_input]> ∅)
           TransactionFormat.sample_messages_fields
           [("system", "Be brief"); ("user", "Hello")]).
  - reflexivity.
  - reflexivity.
  - reflexivity.
  - reflexivity.
Defined.

(** X22 at a transaction fresh from [init]. *)
Lemma formatOutput_no_outputs_witness :
  ∃ txn,
    TransactionManager.init "t-0" 0 TransactionManager.sample_prompt_input
      TransactionManager.sample_origin ∅ = Ok txn
    ∧ TransactionFormat.formatOutput TransactionFormat.sample_ToString
        (has "uri") (has "text") txn = Ok JUndefined.
Proof.
  eexists. split; [reflexivity|].
  apply (proj1 (proj2 (formatOutput_no_outputs
                         TransactionFormat.sample_ToString
                         (has "uri") (has "text") _))
           "t-0" 0%Z TransactionManager.sample_prompt_input
           TransactionManager.sample_origin ∅ eq_refl).
Defined.

(** X23 at the chunks ["a"] and ["~"]. *)
Lemma recorded_iff_witness :
  WebVM.recorded [97%N] = true ∧ WebVM.recorded [126%N] = true.
Proof.
  split.
  - apply (proj2 (recorded_iff [97%N])). exists 97%N, [].
    split; [reflexivity|]. left. lia.
  - apply (proj2 (recorded_iff [126%N])). exists 126%N, [].
    split; [reflexivity|]. right. by left.
Defined.

(** X25 at the prompt ["ai"] and the character ["x"]. *)
Lemma backspace_undoes_witness :
  (WebVM.onData (WebVM.onData [97%N; 105%N] [120%N]).2 [127%N]).2
  = [97%N; 105%N].
Proof.
  apply (proj1 (proj2 (backspace_undoes [97%N; 105%N])) 120%N).
  left. lia.
Defined.
